(** * docker_container_configurator: a shallow embedding and its properties

    The Ansible module [library/docker_container_configurator.py] turns a
    set of partial container templates and a set of per-instance settings
    into rendered container configurations, and orders them so that linked
    containers come first.  This file embeds the module's functions as Rocq
    functions and proves what they do.

    Conventions.
    - A Python value is a [value]; a [dict] is a finite map with string keys
      (Python 2 dicts have no defined iteration order, and no function below
      depends on one, except for which of several exceptions surfaces first).
    - Strings are Python 2 [str] byte strings, as Ansible hands them to a
      module; [unicode] objects are not modelled.
    - A function that can raise returns a [result]; the exceptions are the
      ones of the raise sites of the module, plus the implicit Python ones
      ([TypeError], [IndexError], [AttributeError]).
    - The templating engine (jinja2) is a collaborator: the functions that
      render take it as a parameter [jinja].
    - Container configurations are compared by identity in the module (an
      old-style class without [__eq__]); they are modelled as references
      into a heap of objects. *)

From stdpp Require Import gmap strings list fin_maps pretty.
From Stdlib Require Import ZArith Ascii String.

Set Warnings "-register-all".
Open Scope string_scope.
Open Scope list_scope.

(** ** Values *)

Inductive value : Type :=
| VNone
| VBool (b : bool)
| VInt (z : Z)
| VFloat (bits : Z)          (* a float, by its IEEE-754 bit pattern *)
| VStr (s : string)
| VList (l : list value)
| VDict (d : gmap string value).

Abbreviation dict := (gmap string value).

(** [isinstance(v, dict)], [isinstance(v, list)], [v is None] *)
Definition is_dict (v : value) : bool :=
  match v with VDict _ => true | _ => false end.
Definition is_list (v : value) : bool :=
  match v with VList _ => true | _ => false end.
Definition is_None (v : value) : bool :=
  match v with VNone => true | _ => false end.

(** [v == s] for a [str] [s]: only an equal string compares equal. *)
Definition eq_str (v : value) (s : string) : bool :=
  match v with VStr t => bool_decide (t = s) | _ => false end.

(** The scalars that are neither strings nor containers. *)
Definition is_number_or_bool (v : value) : bool :=
  match v with VBool _ | VInt _ | VFloat _ => true | _ => false end.

(** ** Exceptions and results *)

Inductive exn : Type :=
| MissingTemplate (name : string)
    (* KeyError("Container template does not contain '{0}'") *)
| CyclicInheritance
    (* RuntimeError("Maximum recursion depth exceeded. Check your code for
       a cyclic based_on statement") *)
| TemplateError (msg : string)
    (* jinja2.exceptions.TemplateError, raised by the templating engine *)
| TemplateRenderError (name template_name msg : string)
    (* the TemplateError re-raised by ContainerConfiguration.__init__ *)
| MissingImage (name template_name : string)
    (* KeyError("Invalid container configuration '{0}', because the
       template '{1}' does not contain an image tag") *)
| MissingTemplateReference (name : string)
    (* KeyError("Container configuration '{0}' does not contain 'template'
       declaration") *)
| CyclicLink
    (* RuntimeError("Maximum recursion depth exceeded. Check your template
       for cyclic container linking: {0}") *)
| PyTypeError
| PyIndexError
| PyAttributeError.

Inductive result (A : Type) : Type :=
| Ok (a : A)
| Err (e : exn).
Arguments Ok {A} a.
Arguments Err {A} e.

#[global] Instance result_ret : MRet result := fun _ a => Ok a.
#[global] Instance result_bind : MBind result := fun _ _ f m =>
  match m with Ok a => f a | Err e => Err e end.
#[global] Instance result_fmap : FMap result := fun _ _ f m =>
  match m with Ok a => Ok (f a) | Err e => Err e end.

(** A [for] loop that threads an accumulator and stops at the first
    exception. *)
Fixpoint foldlM {A B : Type} (f : A → B → result A) (acc : A) (l : list B)
  : result A :=
  match l with
  | [] => Ok acc
  | x :: l' => acc' ← f acc x; foldlM f acc' l'
  end.

(** The results of a list, or the first exception in list order. *)
Fixpoint sequence {A : Type} (rs : list (result A)) : result (list A) :=
  match rs with
  | [] => Ok []
  | r :: rs' => a ← r; as' ← sequence rs'; Ok (a :: as')
  end.

(** An exception among the entries of a map of results, if there is one. *)
Definition map_error {A : Type} (rs : gmap string (result A)) : option exn :=
  map_fold (fun _ r acc =>
              match acc with
              | Some e => Some e
              | None => match r with Err e => Some e | Ok _ => None end
              end) None rs.

(** ** _merge_dicts *)

(** The loop of [_merge_dicts] over the union of the keys, for two dicts. *)
Fixpoint merge_values (first second : value) {struct first} : value :=
  match first, second with
  | VDict f, VDict s =>
      VDict (merge (fun fk sk =>
                      match fk, sk with
                      | Some a, Some b => Some (merge_values a b)
                      | Some a, None => Some a
                      | None, sk => sk
                      end) f s)
  | VList f, VList s => VList (f ++ s)
  | _, _ => second
  end.

Definition merge_entry (fk sk : option value) : option value :=
  match fk, sk with
  | Some a, Some b => Some (merge_values a b)
  | Some a, None => Some a
  | None, sk => sk
  end.

Definition merge_keys (first second : dict) : dict :=
  merge merge_entry first second.

(** [_merge_dicts(first, second)]; [None] is Python's [None]. *)
Definition _merge_dicts (first second : option dict) : dict :=
  match first, second with
  | None, None => ∅
  | None, Some s => s
  | Some f, None => f
  | Some f, Some s => merge_keys f s
  end.

(** ** _remove_omit_placeholder *)

(** [[0-9a-f]] *)
Definition is_hex_digit (c : ascii) : bool :=
  let n := nat_of_ascii c in
  ((48 <=? n)%nat && (n <=? 57)%nat) || ((97 <=? n)%nat && (n <=? 102)%nat).

Fixpoint hex_digits (n : nat) (s : string) : bool :=
  match n with
  | O => true
  | S n' =>
      match s with
      | String c s' => is_hex_digit c && hex_digits n' s'
      | EmptyString => false
      end
  end.

Fixpoint strip_prefix (p s : string) : option string :=
  match p with
  | EmptyString => Some s
  | String a p' =>
      match s with
      | String b s' => if Ascii.eqb a b then strip_prefix p' s' else None
      | EmptyString => None
      end
  end.

(** Does [s] start with a match of [__omit_place_holder__[0-9a-f]{40}]? *)
Definition at_placeholder (s : string) : bool :=
  match strip_prefix "__omit_place_holder__" s with
  | Some rest => hex_digits 40 rest
  | None => false
  end.

(** [re.sub] replaces the leftmost matches, left to right, without overlap;
    a match is 61 characters long.  [skip] counts the characters of the
    current match still to be dropped. *)
Fixpoint remove_omit_from (skip : nat) (s : string) : string :=
  match s with
  | EmptyString => EmptyString
  | String c s' =>
      match skip with
      | S k => remove_omit_from k s'
      | O =>
          if at_placeholder s then remove_omit_from 60 s'
          else String c (remove_omit_from 0 s')
      end
  end.

Definition _remove_omit_placeholder (s : string) : string :=
  remove_omit_from 0 s.

(** ** ContainerTemplate *)

Record ContainerTemplate : Type := {
  tpl_name : string;        (* self._name *)
  tpl_template : dict       (* self._template *)
}.

(** One parent of a [based_on] entry: a [str] parent that is not empty
    after the omit placeholders are removed is resolved by [resolve] and
    merged under the template accumulated so far; anything else is
    skipped. *)
Definition merge_parent (resolve : string → result dict)
    (cnt_template : dict) (parent : value) : result dict :=
  match parent with
  | VStr p =>
      let parent := _remove_omit_placeholder p in
      if bool_decide (parent = "") then Ok cnt_template
      else
        parent_template ← resolve parent;
        Ok (_merge_dicts (Some parent_template) (Some cnt_template))
  | _ => Ok cnt_template
  end.

(** [_get_parent_template], by recursion on [budget = 21 - recursion_level]:
    the test [recursion_level > 20] is [budget = 0], and
    [recursion_level += 1] takes one off the budget.  The equation of the
    function in terms of [recursion_level], as the module has it, is
    [_get_parent_template_eq] below. *)
Fixpoint get_parent_template_at (budget : nat) (parent_name : string)
    (partial_templates : dict) : result dict :=
  match partial_templates !! parent_name with
  | None => Err (MissingTemplate parent_name)
  | Some partial_template =>
      match budget with
      | O => Err CyclicInheritance
      | S budget' =>
          match partial_template with
          | VDict cnt_template =>
              let resolve parent :=
                get_parent_template_at budget' parent partial_templates in
              match cnt_template !! "based_on" with
              | None => Ok cnt_template
              | Some VNone => Ok cnt_template
              | Some (VList parents) =>
                  foldlM (merge_parent resolve) cnt_template parents
              | Some (VStr p) => merge_parent resolve cnt_template (VStr p)
              | Some _ => Ok cnt_template
              end
          | _ => Err PyAttributeError   (* partial_template.has_key *)
          end
      end
  end.

Definition _get_parent_template (parent_name : string)
    (partial_templates : dict) (recursion_level : nat) : result dict :=
  get_parent_template_at (21 - recursion_level) parent_name partial_templates.

(** [ContainerTemplate(name, partial_templates)] *)
Definition ContainerTemplate_init (name : string) (partial_templates : dict)
  : result ContainerTemplate :=
  template ← _get_parent_template name partial_templates 0;
  Ok {| tpl_name := name; tpl_template := template |}.

(** The body of [_get_parent_template] as the module writes it. *)
Definition get_parent_template_body (parent_name : string)
    (partial_templates : dict) (recursion_level : nat) : result dict :=
  match partial_templates !! parent_name with
  | None => Err (MissingTemplate parent_name)
  | Some partial_template =>
      if (20 <? recursion_level)%nat then Err CyclicInheritance
      else
        let recursion_level := recursion_level + 1 in
        match partial_template with
        | VDict cnt_template =>
            let resolve parent :=
              _get_parent_template parent partial_templates recursion_level in
            match cnt_template !! "based_on" with
            | None => Ok cnt_template
            | Some VNone => Ok cnt_template
            | Some (VList parents) =>
                foldlM (merge_parent resolve) cnt_template parents
            | Some (VStr p) => merge_parent resolve cnt_template (VStr p)
            | Some _ => Ok cnt_template
            end
        | _ => Err PyAttributeError
        end
  end.

(** ** ContainerConfiguration *)

(** What the templating engine answers for a template string and a context:
    the rendered text, or a [jinja2.exceptions.TemplateError]. *)
Inductive rendering : Type :=
| Rendered (text : string)
| Raises (msg : string).

Record ContainerConfiguration : Type := {
  _name : string;              (* self._name *)
  _defintion_name : string;    (* self._defintion_name *)
  _configuration : dict        (* self._configuration *)
}.

Definition get_template_name (c : ContainerConfiguration) : string :=
  _defintion_name c.
Definition get_name (c : ContainerConfiguration) : string := _name c.
Definition get_configuration (c : ContainerConfiguration) : dict :=
  _configuration c.

(** The parameters of the docker_container module that are taken from the
    settings of an instance. *)
Definition parameter : list string :=
  [ "api_version"; "auto_remove"; "blkio_weight"; "cacert_path";
    "capabilities"; "cert_path"; "cleanup"; "command"; "cpu_period";
    "cpu_quota"; "cpu_shares"; "cpuset_cpus"; "cpuset_mems"; "detach";
    "devices"; "dns_search_domains"; "dns_servers"; "docker_host";
    "entrypoint"; "env"; "env_file"; "etc_hosts"; "exposed_ports";
    "force_kill"; "groups"; "hostname"; "ignore_image"; "image";
    "interactive"; "ipc_mode"; "keep_volumes"; "kernel_memory"; "key_path";
    "kill_signal"; "labels"; "links"; "log_driver"; "log_options";
    "mac_address"; "memory"; "memory_reservation"; "memory_swap";
    "memory_swappiness"; "name"; "network_mode"; "networks"; "oom_killer";
    "oom_score_adj"; "paused"; "pid_mode"; "privileged"; "published_ports";
    "pull"; "purge_networks"; "read_only"; "recreate"; "restart";
    "restart_policy"; "restart_retries"; "security_opts"; "shm_size";
    "ssl_version"; "state"; "stop_signal"; "stop_timeout"; "sysctls";
    "timeout"; "tls"; "tls_hostname"; "tls_verify"; "tmpfs";
    "trust_image_content"; "tty"; "ulimits"; "user"; "uts"; "volume_driver";
    "volumes"; "volumes_from"; "working_dir" ].

(** [_get_docker_parameter_from_config]: for each parameter that is a key of
    [cnt_config], [result[key] = cnt_config[key]]. *)
Definition _get_docker_parameter_from_config (cnt_config : dict) : dict :=
  foldl (fun result param =>
           match cnt_config !! param with
           | Some v => <[param := v]> result
           | None => result
           end) ∅ parameter.

(** [if result is not None: new_value[key] = result] *)
Definition keep_present (r : result value) : option value :=
  match r with
  | Ok v => if is_None v then None else Some v
  | Err _ => None
  end.

(** The loop over the keys of a dict whose values have been rendered: the
    exception of a value, or the dict of the values that are not [None]. *)
Definition render_entries (rs : gmap string (result value)) : result dict :=
  match map_error rs with
  | Some e => Err e
  | None => Ok (omap keep_present rs)
  end.

Section Rendering.

(** [jinja s context] is
    [jinja_env.from_string(s).render(context).encode('utf-8')], with the
    [required] filter installed. *)
Variable jinja : string → dict → rendering.

(** [_render_value]; the [None] it returns for a pruned value is
    [VNone]. *)
Fixpoint _render_value (v : value) (context : dict) : result value :=
  match v with
  | VDict d =>
      new_value ← render_entries ((fun v => _render_value v context) <$> d);
      Ok (if (0 <? size new_value)%nat then VDict new_value else VNone)
  | VList l =>
      results ← sequence ((fun item => _render_value item context) <$> l);
      let new_value := List.filter (fun r => negb (is_None r)) results in
      Ok (if (0 <? List.length new_value)%nat then VList new_value
          else VNone)
  | VStr s =>
      let s := _remove_omit_placeholder s in
      match jinja s context with
      | Rendered result =>
          Ok (if (0 <? String.length result)%nat then VStr result else VNone)
      | Raises msg => Err (TemplateError msg)
      end
  | _ => Ok v
  end.

(** [_create_rendered_configuration]: the first component is the caller's
    [config] dict as the method leaves it, the second what the method
    returns or raises. *)
Definition _create_rendered_configuration (self_name : string)
    (template : ContainerTemplate) (config : dict) : dict * result dict :=
  let cnt_template := tpl_template template in
  let cnt_template :=
    _merge_dicts (Some cnt_template)
                 (Some (_get_docker_parameter_from_config config)) in
  let config := <["CONTAINER_CONFIG_NAME" := VStr self_name]> config in
  (config,
   render_entries ((fun v => _render_value v config) <$> cnt_template)).

(** [ContainerConfiguration(name, template, config)], with the state of
    [config] afterwards. *)
Definition ContainerConfiguration_init (name : string)
    (template : ContainerTemplate) (config : dict)
  : dict * result ContainerConfiguration :=
  let defintion_name := tpl_name template in
  let '(config, rendered) :=
    _create_rendered_configuration name template config in
  (config,
   match rendered with
   | Err (TemplateError msg) =>
       Err (TemplateRenderError name defintion_name msg)
   | Err e => Err e
   | Ok configuration =>
       match configuration !! "image" with
       | None => Err (MissingImage name defintion_name)
       | Some image =>
           if is_None image then Err (MissingImage name defintion_name)
           else Ok {| _name := name;
                      _defintion_name := defintion_name;
                      _configuration := configuration |}
       end
   end).

End Rendering.

(** [get_linked_container] *)
Definition get_linked_container (self : ContainerConfiguration)
  : option (list value) :=
  match _configuration self !! "links" with
  | Some (VList links) => Some links
  | Some (VStr links) => Some [VStr links]
  | _ => None
  end.

(** A templating engine for examples: it answers the template text itself. *)
Definition verbatim (s : string) (_ : dict) : rendering := Rendered s.

(** ** Link order and run order *)

(** [re.match(r'.*?(?=\:)', cnt_link)]: the shortest prefix that a colon
    follows; [.] does not match a newline, so there is no match when a
    newline comes before the first colon, or when there is no colon. *)
Fixpoint match_before_colon (cnt_link : string) : option string :=
  match cnt_link with
  | EmptyString => None
  | String c rest =>
      if Ascii.eqb c ":" then Some EmptyString
      else if Ascii.eqb c "010" then None
      else String c <$> match_before_colon rest
  end.

(** [tmp = re.match(...); if tmp: cnt_link = tmp.group()] *)
Definition link_target (cnt_link : string) : string :=
  match match_before_colon cnt_link with
  | Some target => target
  | None => cnt_link
  end.

Section RunOrder.

(** References to [ContainerConfiguration] objects, and the objects they
    point to.  [l in cnt_config_in_order] compares references. *)
Context {ref : Type} `{EqDecision ref}.
Variable heap : ref → ContainerConfiguration.

(** [config_dict.has_key('name') and config_dict['name'] == cnt_link] *)
Definition has_name (cnt_link : string) (cnt_config : ref) : bool :=
  match get_configuration (heap cnt_config) !! "name" with
  | Some name => eq_str name cnt_link
  | None => false
  end.

(** The inner loop of [get_link_order]: the first configuration with that
    name, at which the loop breaks. *)
Definition find_config (cnt_link : string) (container_configurations : list ref)
  : option ref :=
  List.find (has_name cnt_link) container_configurations.

(** The body of the loop over [cnt_links]; [link_order_of] is the
    recursive call. *)
Definition add_link (link_order_of : ref → result (list ref))
    (container_configurations : list ref)
    (cnt_link_order : list ref) (cnt_link : value) : result (list ref) :=
  match cnt_link with
  | VStr s =>
      match find_config (link_target s) container_configurations with
      | Some cnt_config =>
          linked ← link_order_of cnt_config;
          Ok (linked ++ cnt_link_order)%list
      | None => Ok cnt_link_order
      end
  | _ => Err PyTypeError     (* re.match on something that is no string *)
  end.

(** [get_link_order], by recursion on [budget = 21 - recursion_level] as
    for the templates.  When the budget is used up the module raises the
    RuntimeError, after it has evaluated
    [configuration.get_linked_container()[0]] for the message. *)
Fixpoint get_link_order_at (budget : nat) (configuration : ref)
    (container_configurations : list ref) : result (list ref) :=
  match budget with
  | O =>
      match get_linked_container (heap configuration) with
      | None => Err PyTypeError
      | Some [] => Err PyIndexError
      | Some (_ :: _) => Err CyclicLink
      end
  | S budget' =>
      match get_linked_container (heap configuration) with
      | None => Ok [configuration]
      | Some cnt_links =>
          foldlM (add_link
                    (fun c => get_link_order_at budget' c
                                container_configurations)
                    container_configurations)
                 [configuration] cnt_links
      end
  end.

Definition get_link_order (configuration : ref)
    (container_configurations : list ref) (recursion_level : nat)
  : result (list ref) :=
  get_link_order_at (21 - recursion_level) configuration
    container_configurations.

(** [for l in link_order: if l not in cnt_config_in_order:
    cnt_config_in_order.append(l)] *)
Definition append_new (cnt_config_in_order link_order : list ref)
  : list ref :=
  foldl (fun acc l => if bool_decide (l ∈ acc) then acc else (acc ++ [l])%list)
        cnt_config_in_order link_order.

(** The body of the loop over the configurations for one template name of
    [run_order]. *)
Definition place_template (container_configurations : list ref)
    (cnt_template_name : value)
    (cnt_config_in_order : list ref) (cnt_config : ref)
  : result (list ref) :=
  if eq_str cnt_template_name (get_template_name (heap cnt_config)) then
    link_order ← get_link_order cnt_config container_configurations 0;
    Ok (append_new cnt_config_in_order link_order)
  else Ok cnt_config_in_order.

(** The body of the second loop. *)
Definition place_remaining (container_configurations : list ref)
    (cnt_config_in_order : list ref) (cnt_config : ref)
  : result (list ref) :=
  if bool_decide (cnt_config ∈ cnt_config_in_order)
  then Ok cnt_config_in_order
  else
    link_order ← get_link_order cnt_config container_configurations 0;
    Ok (append_new cnt_config_in_order link_order).

(** [create_run_order]; [run_order] is any value, a list or not. *)
Definition create_run_order (container_configurations : list ref)
    (run_order : value) : result (list ref) :=
  cnt_config_in_order ←
    match run_order with
    | VList names =>
        foldlM (fun acc cnt_template_name =>
                  foldlM (place_template container_configurations
                                         cnt_template_name)
                         acc container_configurations)
               [] names
    | _ => Ok []
    end;
  foldlM (place_remaining container_configurations)
         cnt_config_in_order container_configurations.

End RunOrder.

(** Two heaps of two objects for examples: at 0 a configuration "web" that
    links to "db:alias", at 1 a configuration "db". *)
Definition web_db_named (r : nat) : ContainerConfiguration :=
  match r with
  | 0 => {| _name := "web"; _defintion_name := "app";
            _configuration := {[ "image" := VStr "nginx";
                                 "name" := VStr "web";
                                 "links" := VList [VStr "db:alias"] ]} |}
  | _ => {| _name := "db"; _defintion_name := "database";
            _configuration := {[ "image" := VStr "postgres";
                                 "name" := VStr "db" ]} |}
  end.

Definition web_db_unnamed (r : nat) : ContainerConfiguration :=
  match r with
  | 0 => {| _name := "web"; _defintion_name := "app";
            _configuration := {[ "image" := VStr "nginx";
                                 "links" := VList [VStr "db:alias"] ]} |}
  | _ => {| _name := "db"; _defintion_name := "database";
            _configuration := {[ "image" := VStr "postgres" ]} |}
  end.

(** ** Auxiliary notions for the properties *)

(** The result is a value, not an exception. *)
Definition is_Ok {A : Type} (r : result A) : Prop := ∃ a, r = Ok a.

(** The number of constructors of a value, for induction. *)
Fixpoint value_size (v : value) : nat :=
  match v with
  | VList l => S (foldr (fun x n => value_size x + n) 0 l)
  | VDict d => S (map_fold (fun _ x n => value_size x + n) 0 d)
  | _ => 1
  end.

Section RunOrderNotions.

Context {ref : Type} `{EqDecision ref}.
Variable heap : ref → ContainerConfiguration.
Variable container_configurations : list ref.

(** [C] has a link that [get_link_order] resolves to [L]: an entry of its
    links whose target is the name of a configuration, of which [L] is the
    first. *)
Definition links_to (C L : ref) : Prop :=
  ∃ cnt_links s,
    get_linked_container (heap C) = Some cnt_links
    ∧ VStr s ∈ cnt_links
    ∧ find_config heap (link_target s) container_configurations = Some L.

(** [x] is at an earlier place of [l] than [y]. *)
Definition before (l : list ref) (x y : ref) : Prop :=
  ∃ i j, l !! i = Some x ∧ l !! j = Some y ∧ i < j.

(** Wherever a configuration is in [l], each configuration it links to is
    at an earlier place. *)
Definition links_first (l : list ref) : Prop :=
  ∀ i C L, l !! i = Some C → links_to C L → ∃ j, j < i ∧ l !! j = Some L.

(** What [get_link_order] returns for [c]: the link orders of the
    configurations it links to, and then [c]. *)
Definition link_order_spec (c : ref) (lo : list ref) : Prop :=
  ∃ pre, lo = pre ++ [c]
         ∧ links_first pre
         ∧ (∀ x, x ∈ pre → x ∈ container_configurations)
         ∧ (∀ L, links_to c L → L ∈ pre).

(** What the loops of [create_run_order] keep true of the list they
    extend. *)
Definition run_order_inv (l : list ref) : Prop :=
  NoDup l ∧ links_first l ∧ (∀ x, x ∈ l → x ∈ container_configurations).

End RunOrderNotions.

(** A heap of two objects that link to each other. *)
Definition ping_pong (r : nat) : ContainerConfiguration :=
  match r with
  | 0 => {| _name := "ping"; _defintion_name := "app";
            _configuration := {[ "image" := VStr "busybox";
                                 "name" := VStr "ping";
                                 "links" := VStr "pong" ]} |}
  | _ => {| _name := "pong"; _defintion_name := "app";
            _configuration := {[ "image" := VStr "busybox";
                                 "name" := VStr "pong";
                                 "links" := VList [VStr "ping:peer"] ]} |}
  end.

(** ** create_templates, create_configurations and main *)

(** Python does not define the order in which [iterkeys] goes through a
    dict.  The functions that loop over a dict take that order as an
    argument [order]: the keys of the dict, each once. *)

(** [create_templates] *)
Definition create_templates (order : list string)
    (container_partial_templates : dict) : result (list ContainerTemplate) :=
  sequence ((fun key => ContainerTemplate_init key container_partial_templates)
              <$> order).

(** What [main] can fail with: an exception of the functions above, or one
    of [create_configurations]. *)
Inductive module_error : Type :=
| Raised (e : exn)
| NoTemplateDeclaration (cnt_config : value)
    (* KeyError("Container configuration '{0}' does not contain 'template'
       declaration".format(cnt_config)) *)
| UnknownTemplate (template : value)
    (* KeyError("Container template does not contain '{0}'"
       .format(cnt_config['template'])) *)
| PyKeyError (key : string).
    (* config[key] for a key that the dict does not have *)

Inductive outcome (A : Type) : Type :=
| Done (a : A)
| Failed (e : module_error).
Arguments Done {A} a.
Arguments Failed {A} e.

(** The loop over [templates]: the first template whose name is
    [cnt_config['template']]. *)
Definition find_template (templates : list ContainerTemplate)
    (template : value) : option ContainerTemplate :=
  List.find (fun t => eq_str template (tpl_name t)) templates.

(** The body of the loop of [create_configurations] for one key: the
    [config] dict afterwards (the dict under [key] is the one that the
    constructor has changed), and the configuration or the exception. *)
Definition configure (jinja : string → dict → rendering)
    (templates : list ContainerTemplate) (config : dict) (key : string)
  : dict * outcome ContainerConfiguration :=
  match config !! key with
  | None => (config, Failed (PyKeyError key))
  | Some (VDict cnt_config) =>
      match cnt_config !! "template" with
      | None => (config, Failed (NoTemplateDeclaration (VDict cnt_config)))
      | Some template =>
          match find_template templates template with
          | None => (config, Failed (UnknownTemplate template))
          | Some cnt_template =>
              let '(cnt_config, built) :=
                ContainerConfiguration_init jinja key cnt_template cnt_config in
              (<[key := VDict cnt_config]> config,
               match built with
               | Ok configuration => Done configuration
               | Err e => Failed (Raised e)
               end)
          end
      end
  | Some _ => (config, Failed (Raised PyAttributeError))
      (* cnt_config.has_key *)
  end.

(** [create_configurations], with the [config] dict afterwards. *)
Fixpoint create_configurations (jinja : string → dict → rendering)
    (templates : list ContainerTemplate) (config : dict)
    (order : list string) : dict * outcome (list ContainerConfiguration) :=
  match order with
  | [] => (config, Done [])
  | key :: order' =>
      let '(config, configured) := configure jinja templates config key in
      match configured with
      | Failed e => (config, Failed e)
      | Done configuration =>
          let '(config, rest) :=
            create_configurations jinja templates config order' in
          (config,
           match rest with
           | Done configurations => Done (configuration :: configurations)
           | Failed e => Failed e
           end)
      end
  end.

(** What a reference that points to no object is read as; no function
    reads one. *)
Definition no_object : ContainerConfiguration :=
  {| _name := ""; _defintion_name := ""; _configuration := ∅ |}.

(** The configurations that [create_configurations] has made are different
    objects: the reference to one is its place in the list. *)
Definition object_at (objects : list ContainerConfiguration) (r : nat)
  : ContainerConfiguration :=
  nth r objects no_object.

(** [main]: what is handed to [exit_json] as
    docker_container_configurations, or the exception whose [repr] is
    handed to [fail_json]. *)
Definition main (jinja : string → dict → rendering)
    (templates config : dict) (run_order : value)
    (templates_order config_order : list string) : outcome (list dict) :=
  match create_templates templates_order templates with
  | Err e => Failed (Raised e)
  | Ok container_templates =>
      match (create_configurations jinja container_templates config
               config_order).2 with
      | Failed e => Failed e
      | Done container_configurations =>
          match create_run_order (object_at container_configurations)
                  (seq 0 (List.length container_configurations))
                  run_order with
          | Err e => Failed (Raised e)
          | Ok container_configurations_in_run_order =>
              Done ((fun c => get_configuration
                                (object_at container_configurations c))
                      <$> container_configurations_in_run_order)
          end
      end
  end.

(** ** Further notions for the properties *)

(** A value that rendering has left nothing to prune in: it is not None,
    not an empty string, list or dict, and neither is anything in it. *)
Inductive pruned : value → Prop :=
| pruned_bool b : pruned (VBool b)
| pruned_int z : pruned (VInt z)
| pruned_float bits : pruned (VFloat bits)
| pruned_str s : s ≠ "" → pruned (VStr s)
| pruned_list l : l ≠ [] → Forall pruned l → pruned (VList l)
| pruned_dict (d : dict) :
    d ≠ ∅ → map_Forall (fun _ => pruned) d → pruned (VDict d).

(** The templates and settings of a small run. *)
Definition demo_templates : dict :=
  {[ "base" := VDict {[ "image" := VStr "alpine"; "restart" := VStr "no" ]};
     "database" := VDict {[ "based_on" := VStr "base";
                            "image" := VStr "postgres";
                            "name" := VStr "db" ]};
     "app" := VDict {[ "based_on" := VList [VStr "base"];
                       "name" := VStr "web";
                       "links" := VList [VStr "db:alias"] ]} ]}.

Definition demo_config : dict :=
  {[ "web1" := VDict {[ "template" := VStr "app";
                        "image" := VStr "nginx";
                        "color" := VStr "blue" ]};
     "db1" := VDict {[ "template" := VStr "database" ]} ]}.

(** A [based_on] entry that names no parent: anything but a string that is
    not empty once the omit placeholders are removed. *)
Definition no_parent (p : value) : Prop :=
  ∀ s, p = VStr s → _remove_omit_placeholder s = "".

(** A [based_on] value under which no parent is resolved. *)
Definition names_no_parent (based_on : option value) : Prop :=
  match based_on with
  | Some (VList parents) => Forall no_parent parents
  | Some p => no_parent p
  | None => True
  end.

(** The names "t0", "t1", ... and the templates "t0" to "t<n>", each based
    on the next one, the last one based on nothing. *)
Definition chain_name (i : nat) : string := "t" +:+ pretty i.

Fixpoint template_chain (n : nat) : dict :=
  match n with
  | O => {[ chain_name 0 := VDict {[ "image" := VStr "alpine" ]} ]}
  | S m =>
      <[ chain_name m := VDict {[ "based_on" := VStr (chain_name n) ]} ]>
        (<[ chain_name n := VDict {[ "image" := VStr "alpine" ]} ]>
           (template_chain m))
  end.

(** A heap of configurations "c0", "c1", ..., each with the next one as its
    only link, up to "c21", which has no links. *)
Definition link_chain (r : nat) : ContainerConfiguration :=
  {| _name := "i" +:+ pretty r;
     _defintion_name := "app";
     _configuration :=
       if (r <? 21)%nat
       then {[ "image" := VStr "busybox";
               "name" := VStr ("c" +:+ pretty r);
               "links" := VStr ("c" +:+ pretty (S r)) ]}
       else {[ "image" := VStr "busybox";
               "name" := VStr ("c" +:+ pretty r) ]} |}.

(** A link entry that is the name of no configuration of the input. *)
Definition unresolved {ref : Type} (heap : ref → ContainerConfiguration)
    (container_configurations : list ref) (cnt_link : value) : Prop :=
  ∃ s, cnt_link = VStr s
       ∧ find_config heap (link_target s) container_configurations = None.

(** The configurations of the templates of a priority list, in the order
    of the list and, for one template, in the order of the input. *)
Definition prioritized {ref : Type} (heap : ref → ContainerConfiguration)
    (container_configurations : list ref) (names : list value) : list ref :=
  flat_map (fun cnt_template_name =>
              List.filter (fun c => eq_str cnt_template_name
                                      (get_template_name (heap c)))
                          container_configurations) names.

(** What [create_configurations] has done for the instance [key] when it
    returns the configuration [c]: the settings [config[key]] are a dict
    with a template declaration, the declaration is the name of a template,
    [c] is constructed from that template and those settings, and the
    settings have CONTAINER_CONFIG_NAME afterwards. *)
Definition configured (jinja : string → dict → rendering)
    (templates : list ContainerTemplate) (config config_after : dict)
    (key : string) (c : ContainerConfiguration) : Prop :=
  ∃ (cnt_config : dict) (template : value) (cnt_template : ContainerTemplate),
    config !! key = Some (VDict cnt_config)
    ∧ cnt_config !! "template" = Some template
    ∧ find_template templates template = Some cnt_template
    ∧ (ContainerConfiguration_init jinja key cnt_template cnt_config).2 = Ok c
    ∧ config_after !! key
      = Some (VDict (<["CONTAINER_CONFIG_NAME" := VStr key]> cnt_config)).

(** A rendered configuration with an image. *)
Definition has_image (configuration : dict) : Prop :=
  ∃ image, configuration !! "image" = Some image ∧ image ≠ VNone.

(** * Properties *)

(** ** The functions on small inputs *)

Lemma _get_parent_template_eq parent_name partial_templates recursion_level :
  _get_parent_template parent_name partial_templates recursion_level
  = get_parent_template_body parent_name partial_templates recursion_level.
Proof.
  unfold _get_parent_template, get_parent_template_body.
  destruct (Nat.ltb_spec 20 recursion_level) as [Hlvl|Hlvl].
  - replace (21 - recursion_level) with 0 by lia.
    simpl. by destruct (partial_templates !! parent_name).
  - replace (21 - recursion_level) with (S (21 - (recursion_level + 1))) by lia.
    reflexivity.
Qed.

Example resolve_inheritance_example :
  (λ t, t !! "x") <$>
    _get_parent_template "C"
      {[ "A" := VDict {[ "x" := VInt 1 ]};
         "B" := VDict {[ "x" := VInt 2 ]};
         "C" := VDict {[ "based_on" := VList [VStr "A"; VStr "B"] ]} ]} 0
  = Ok (Some (VInt 1)).
Proof. vm_compute. reflexivity. Qed.

Example remove_omit_example :
  _remove_omit_placeholder
    "a__omit_place_holder__0123456789abcdef0123456789abcdef01234567b" = "ab".
Proof. vm_compute. reflexivity. Qed.

Example render_prune_example :
  _render_value verbatim
    (VDict {[ "a" := VStr ""; "b" := VDict {[ "c" := VStr "" ]} ]}) ∅
  = Ok VNone.
Proof. vm_compute. reflexivity. Qed.

Example run_order_named :
  create_run_order web_db_named [0; 1] (VList []) = Ok [1; 0].
Proof. vm_compute. reflexivity. Qed.

Example link_target_examples :
  link_target "db:alias" = "db"
  ∧ link_target "db" = "db"
  ∧ link_target ":alias" = ""
  ∧ link_target "a:b:c" = "a"
  ∧ link_target (String "a" (String "010" "b:c"))
    = String "a" (String "010" "b:c").
Proof. repeat split. Qed.

Example run_order_cyclic_links :
  create_run_order ping_pong [0; 1] (VList []) = Err CyclicLink.
Proof. vm_compute. reflexivity. Qed.

Example run_order_priority :
  create_run_order web_db_named [1; 0] (VList [VStr "app"]) = Ok [1; 0].
Proof. vm_compute. reflexivity. Qed.

(** ** Merging *)

Lemma merge_values_dict (f s : dict) :
  merge_values (VDict f) (VDict s) = VDict (merge_keys f s).
Proof. reflexivity. Qed.

Lemma lookup_merge_keys (f s : dict) (k : string) :
  merge_keys f s !! k = merge_entry (f !! k) (s !! k).
Proof.
  unfold merge_keys. rewrite lookup_merge.
  by destruct (f !! k), (s !! k).
Qed.

(** A key of the second dict is a key of the merged dict. *)
Lemma merge_keys_second (f s : dict) (k : string) :
  is_Some (s !! k) → is_Some (merge_keys f s !! k).
Proof.
  intros [y Hy]. rewrite lookup_merge_keys, Hy.
  destruct (f !! k); simpl; eauto.
Qed.

(** A value that is not merged with the one under it replaces it. *)
Lemma merge_values_replace (x y : value) :
  is_dict x && is_dict y = false →
  is_list x && is_list y = false →
  merge_values x y = y.
Proof. destruct x, y; simpl; intros; congruence. Qed.

(** C4: merging None with None gives the empty dict; under a key of both
    dicts, two dicts are merged recursively, two lists are concatenated,
    first's list before second's (so that merging {"l": [1, 2]} with
    {"l": [3]} gives [1, 2, 3] under "l"), and any other pair of values
    gives second's value. *)
Theorem merge_dicts_shared_keys :
  _merge_dicts None None = ∅
  ∧ (∀ (B O a b : dict) (k : string),
        B !! k = Some (VDict a) → O !! k = Some (VDict b) →
        _merge_dicts (Some B) (Some O) !! k
        = Some (VDict (_merge_dicts (Some a) (Some b))))
  ∧ (∀ (B O : dict) (l1 l2 : list value) (k : string),
        B !! k = Some (VList l1) → O !! k = Some (VList l2) →
        _merge_dicts (Some B) (Some O) !! k = Some (VList (l1 ++ l2)))
  ∧ _merge_dicts (Some {[ "l" := VList [VInt 1; VInt 2] ]})
                 (Some {[ "l" := VList [VInt 3] ]}) !! "l"
    = Some (VList [VInt 1; VInt 2; VInt 3])
  ∧ (∀ (B O : dict) (x y : value) (k : string),
        B !! k = Some x → O !! k = Some y →
        is_dict x && is_dict y = false →
        is_list x && is_list y = false →
        _merge_dicts (Some B) (Some O) !! k = O !! k).
Proof.
  split; [reflexivity|].
  split; [|split; [|split]].
  - intros B O a b k HB HO. simpl.
    by rewrite lookup_merge_keys, HB, HO.
  - intros B O l1 l2 k HB HO. simpl.
    by rewrite lookup_merge_keys, HB, HO.
  - vm_compute. reflexivity.
  - intros B O x y k HB HO Hd Hl. simpl.
    rewrite lookup_merge_keys, HB, HO. simpl.
    by rewrite merge_values_replace.
Qed.

Lemma merge_dicts_shared_keys_witness :
  _merge_dicts (Some {[ "env" := VDict {[ "A" := VInt 1 ]} ]})
               (Some {[ "env" := VDict {[ "B" := VInt 2 ]} ]}) !! "env"
  = Some (VDict (_merge_dicts (Some {[ "A" := VInt 1 ]})
                              (Some {[ "B" := VInt 2 ]})))
  ∧ _merge_dicts (Some {[ "l" := VList [VStr "a"] ]})
                 (Some {[ "l" := VList [VStr "b"] ]}) !! "l"
    = Some (VList [VStr "a"; VStr "b"])
  ∧ _merge_dicts (Some {[ "image" := VStr "old" ]})
                 (Some {[ "image" := VStr "new" ]}) !! "image"
    = ({[ "image" := VStr "new" ]} : dict) !! "image".
Proof.
  destruct merge_dicts_shared_keys as (_ & Hdict & Hlist & _ & Hother).
  split; [|split].
  - apply Hdict; vm_compute; reflexivity.
  - apply (Hlist _ _ [VStr "a"] [VStr "b"]); vm_compute; reflexivity.
  - apply (Hother _ _ (VStr "old") (VStr "new")); vm_compute; reflexivity.
Defined.

(** ** Template inheritance *)

Lemma foldlM_cons {A B} (f : A → B → result A) acc x l :
  foldlM f acc (x :: l) = (acc' ← f acc x; foldlM f acc' l).
Proof. reflexivity. Qed.

Lemma foldlM_nil {A B} (f : A → B → result A) acc :
  foldlM f acc [] = Ok acc.
Proof. reflexivity. Qed.

Lemma bind_Ok {A B} (f : A → result B) a : (Ok a ≫= f) = f a.
Proof. reflexivity. Qed.

Lemma bind_Err {A B} (f : A → result B) e : (Err e ≫= f) = Err e.
Proof. reflexivity. Qed.

Lemma get_parent_template_at_S budget name (pts t : dict) :
  pts !! name = Some (VDict t) →
  get_parent_template_at (S budget) name pts
  = match t !! "based_on" with
    | None => Ok t
    | Some VNone => Ok t
    | Some (VList parents) =>
        foldlM (merge_parent (fun p => get_parent_template_at budget p pts))
               t parents
    | Some (VStr p) =>
        merge_parent (fun p => get_parent_template_at budget p pts) t (VStr p)
    | Some _ => Ok t
    end.
Proof. intros Hname. simpl. by rewrite Hname. Qed.

Lemma get_parent_template_at_leaf budget name (pts t : dict) :
  pts !! name = Some (VDict t) → t !! "based_on" = None →
  get_parent_template_at (S budget) name pts = Ok t.
Proof.
  intros Hname Hbased.
  by rewrite (get_parent_template_at_S _ _ _ _ Hname), Hbased.
Qed.

(** A parent that is named plainly is resolved and merged under the
    template accumulated so far. *)
Lemma merge_parent_named resolve (cnt_template parent_template : dict) p :
  _remove_omit_placeholder p = p → p ≠ "" →
  resolve p = Ok parent_template →
  merge_parent resolve cnt_template (VStr p)
  = Ok (merge_keys parent_template cnt_template).
Proof.
  intros Hplain Hne Hres. unfold merge_parent. rewrite Hplain.
  rewrite bool_decide_eq_false_2 by done. by rewrite Hres.
Qed.

Lemma merge_parent_fails resolve (cnt_template : dict) p e :
  _remove_omit_placeholder p = p → p ≠ "" →
  resolve p = Err e →
  merge_parent resolve cnt_template (VStr p) = Err e.
Proof.
  intros Hplain Hne Hres. unfold merge_parent. rewrite Hplain.
  rewrite bool_decide_eq_false_2 by done. by rewrite Hres.
Qed.

(** Whatever a parent contributes, the keys of the template accumulated so
    far stay. *)
Lemma merge_parent_keeps resolve (cnt_template merged : dict) parent k :
  merge_parent resolve cnt_template parent = Ok merged →
  is_Some (cnt_template !! k) → is_Some (merged !! k).
Proof.
  unfold merge_parent. intros Hm Hk.
  destruct parent; try (by inversion Hm; subst).
  case_bool_decide; [by inversion Hm; subst|].
  destruct (resolve _) as [parent_template|]; simpl in Hm; [|done].
  inversion Hm; subst. by apply merge_keys_second.
Qed.

Lemma foldlM_merge_parent_keeps resolve parents (cnt_template merged : dict) k :
  foldlM (merge_parent resolve) cnt_template parents = Ok merged →
  is_Some (cnt_template !! k) → is_Some (merged !! k).
Proof.
  revert cnt_template. induction parents as [|parent parents IH];
    intros cnt_template Hfold Hk; simpl in Hfold.
  - by inversion Hfold; subst.
  - destruct (merge_parent resolve cnt_template parent) as [next|] eqn:Hstep;
      simpl in Hfold; [|done].
    eapply IH; [done|]. by eapply merge_parent_keeps.
Qed.

(** C3: with templates A = {"x": 1} and B = {"x": 2}, a template C based on
    ["A", "B"] resolves to x = 1 when it has no "x" of its own, and to
    x = 9 when it has "x": 9 itself. *)
Theorem inheritance_precedence (pts c : dict) :
  pts !! "A" = Some (VDict {[ "x" := VInt 1 ]}) →
  pts !! "B" = Some (VDict {[ "x" := VInt 2 ]}) →
  pts !! "C" = Some (VDict c) →
  c !! "based_on" = Some (VList [VStr "A"; VStr "B"]) →
  (c !! "x" = None →
   ∃ t, ContainerTemplate_init "C" pts = Ok t
        ∧ tpl_template t !! "x" = Some (VInt 1))
  ∧ (c !! "x" = Some (VInt 9) →
     ∃ t, ContainerTemplate_init "C" pts = Ok t
          ∧ tpl_template t !! "x" = Some (VInt 9)).
Proof.
  intros HA HB HC Hbased.
  assert (Hleaf : ∀ (v : value), ({[ "x" := v ]} : dict) !! "based_on" = None).
  { intros v. by apply lookup_singleton_ne. }
  assert (Hres : _get_parent_template "C" pts 0
                 = Ok (merge_keys {[ "x" := VInt 2 ]}
                         (merge_keys {[ "x" := VInt 1 ]} c))).
  { unfold _get_parent_template.
    change (21 - 0) with 21.
    rewrite (get_parent_template_at_S _ _ _ _ HC), Hbased.
    rewrite foldlM_cons.
    rewrite (merge_parent_named _ _ {[ "x" := VInt 1 ]});
      [|by vm_compute|done|by eapply get_parent_template_at_leaf].
    rewrite bind_Ok, foldlM_cons.
    rewrite (merge_parent_named _ _ {[ "x" := VInt 2 ]});
      [|by vm_compute|done|by eapply get_parent_template_at_leaf].
    reflexivity. }
  unfold ContainerTemplate_init. rewrite Hres, bind_Ok.
  split; intros Hx; eexists; (split; [reflexivity|]);
    cbn [tpl_template];
    rewrite !lookup_merge_keys, Hx, !lookup_singleton_eq; reflexivity.
Qed.

Lemma inheritance_precedence_witness :
  (∃ t, ContainerTemplate_init "C"
          {[ "A" := VDict {[ "x" := VInt 1 ]};
             "B" := VDict {[ "x" := VInt 2 ]};
             "C" := VDict {[ "based_on" := VList [VStr "A"; VStr "B"] ]} ]}
        = Ok t ∧ tpl_template t !! "x" = Some (VInt 1))
  ∧ (∃ t, ContainerTemplate_init "C"
            {[ "A" := VDict {[ "x" := VInt 1 ]};
               "B" := VDict {[ "x" := VInt 2 ]};
               "C" := VDict {[ "based_on" := VList [VStr "A"; VStr "B"];
                               "x" := VInt 9 ]} ]}
          = Ok t ∧ tpl_template t !! "x" = Some (VInt 9)).
Proof.
  split.
  - apply (inheritance_precedence _
             {[ "based_on" := VList [VStr "A"; VStr "B"] ]});
      vm_compute; reflexivity.
  - apply (inheritance_precedence _
             {[ "based_on" := VList [VStr "A"; VStr "B"]; "x" := VInt 9 ]});
      vm_compute; reflexivity.
Defined.

Lemma get_parent_template_at_O name (pts : dict) (t : value) :
  pts !! name = Some t →
  get_parent_template_at 0 name pts = Err CyclicInheritance.
Proof. intros Hname. simpl. by rewrite Hname. Qed.

(** Two templates that are based on each other are not resolved, whatever
    the budget. *)
Lemma cyclic_pair_at (pts a b : dict) (na nb : string) :
  _remove_omit_placeholder na = na → na ≠ "" →
  _remove_omit_placeholder nb = nb → nb ≠ "" →
  pts !! na = Some (VDict a) → a !! "based_on" = Some (VStr nb) →
  pts !! nb = Some (VDict b) → b !! "based_on" = Some (VStr na) →
  ∀ budget,
    get_parent_template_at budget na pts = Err CyclicInheritance
    ∧ get_parent_template_at budget nb pts = Err CyclicInheritance.
Proof.
  intros Hpa Hna Hpb Hnb Ha Hab Hb Hba budget.
  induction budget as [|budget [IHa IHb]].
  - split; by eapply get_parent_template_at_O.
  - split.
    + rewrite (get_parent_template_at_S _ _ _ _ Ha), Hab.
      by apply merge_parent_fails.
    + rewrite (get_parent_template_at_S _ _ _ _ Hb), Hba.
      by apply merge_parent_fails.
Qed.

(** C8: when template A is based on B and B on A, constructing the template
    of either raises the RuntimeError of the depth test, and so does
    resolving either at any recursion level: no result is returned. *)
Theorem cyclic_inheritance_fails (pts a b : dict) (na nb : string) :
  _remove_omit_placeholder na = na → na ≠ "" →
  _remove_omit_placeholder nb = nb → nb ≠ "" →
  pts !! na = Some (VDict a) → a !! "based_on" = Some (VStr nb) →
  pts !! nb = Some (VDict b) → b !! "based_on" = Some (VStr na) →
  ContainerTemplate_init na pts = Err CyclicInheritance
  ∧ ContainerTemplate_init nb pts = Err CyclicInheritance
  ∧ ∀ recursion_level,
      _get_parent_template na pts recursion_level = Err CyclicInheritance
      ∧ _get_parent_template nb pts recursion_level = Err CyclicInheritance.
Proof.
  intros Hpa Hna Hpb Hnb Ha Hab Hb Hba.
  pose proof (cyclic_pair_at pts a b na nb Hpa Hna Hpb Hnb Ha Hab Hb Hba)
    as Hcyc.
  unfold ContainerTemplate_init, _get_parent_template.
  destruct (Hcyc (21 - 0)) as [-> ->].
  repeat split; apply Hcyc.
Qed.

Lemma cyclic_inheritance_fails_witness :
  ContainerTemplate_init "A"
    {[ "A" := VDict {[ "based_on" := VStr "B" ]};
       "B" := VDict {[ "based_on" := VStr "A" ]} ]} = Err CyclicInheritance
  ∧ ContainerTemplate_init "B"
      {[ "A" := VDict {[ "based_on" := VStr "B" ]};
         "B" := VDict {[ "based_on" := VStr "A" ]} ]} = Err CyclicInheritance.
Proof.
  pose proof (cyclic_inheritance_fails
    {[ "A" := VDict {[ "based_on" := VStr "B" ]};
       "B" := VDict {[ "based_on" := VStr "A" ]} ]}
    {[ "based_on" := VStr "B" ]} {[ "based_on" := VStr "A" ]} "A" "B")
    as Hfails.
  destruct Hfails as (HA & HB & _);
    try (vm_compute; reflexivity); try discriminate.
  split; assumption.
Defined.

(** ** Rendering *)

Lemma map_error_None {A : Type} (rs : gmap string (result A)) :
  map_error rs = None ↔ map_Forall (fun _ r => is_Ok r) rs.
Proof.
  unfold map_error. apply (map_fold_weak_ind
    (fun acc (m : gmap string (result A)) =>
       acc = None ↔ map_Forall (fun _ r => is_Ok r) m)).
  - split; [intros _; apply map_Forall_empty|done].
  - intros k r m acc Hfresh IH.
    rewrite map_Forall_insert by done.
    destruct acc as [e|].
    + split; [done|]. intros [_ Hall]. by apply IH.
    + destruct r as [a|e].
      * split; [|done]. intros _. split; [by exists a|by apply IH].
      * split; [done|]. by intros [[a Ha] _].
Qed.

Lemma render_entries_Ok (rs : gmap string (result value)) (d : dict) :
  render_entries rs = Ok d →
  map_Forall (fun _ r => is_Ok r) rs ∧ d = omap keep_present rs.
Proof.
  unfold render_entries. destruct (map_error rs) eqn:Herr; [done|].
  intros [= <-]. split; [by apply map_error_None|done].
Qed.

Lemma render_entries_all_Ok (rs : gmap string (result value)) :
  map_Forall (fun _ r => is_Ok r) rs →
  render_entries rs = Ok (omap keep_present rs).
Proof.
  intros Hall. unfold render_entries.
  by rewrite (proj2 (map_error_None rs) Hall).
Qed.

Lemma sequence_fmap_cons {A B : Type} (f : A → result B) v (l : list A) :
  sequence (f <$> v :: l)
  = (a ← f v; as' ← sequence (f <$> l); Ok (a :: as')).
Proof. reflexivity. Qed.

Lemma sequence_fmap_Ok {A B : Type} (f : A → result B) (l : list A) rs :
  sequence (f <$> l) = Ok rs → Forall2 (fun v r => f v = Ok r) l rs.
Proof.
  revert rs. induction l as [|v l IH]; intros rs.
  - intros [= <-]. constructor.
  - rewrite sequence_fmap_cons.
    destruct (f v) as [r|] eqn:Hv; [|by rewrite bind_Err]. rewrite bind_Ok.
    destruct (sequence (f <$> l)) as [rs'|]; [|by rewrite bind_Err].
    rewrite bind_Ok. intros [= <-]. constructor; [done|by apply IH].
Qed.

Lemma sequence_fmap_const {A B : Type} (f : A → result B) (l : list A) b :
  (∀ v, v ∈ l → f v = Ok b) →
  sequence (f <$> l) = Ok (replicate (List.length l) b).
Proof.
  induction l as [|v l IH]; intros Hall; [done|].
  rewrite sequence_fmap_cons, (Hall v) by left. rewrite bind_Ok.
  rewrite IH by (intros; apply Hall; by right). done.
Qed.

Section RenderingProperties.

Variable jinja : string → dict → rendering.
Variable context : dict.

Lemma render_dict_eq (d : dict) :
  _render_value jinja (VDict d) context
  = (new_value ← render_entries
       ((fun v => _render_value jinja v context) <$> d);
     Ok (if (0 <? size new_value)%nat then VDict new_value else VNone)).
Proof. reflexivity. Qed.

Lemma render_list_eq (l : list value) :
  _render_value jinja (VList l) context
  = (results ← sequence ((fun v => _render_value jinja v context) <$> l);
     let new_value := List.filter (fun r => negb (is_None r)) results in
     Ok (if (0 <? List.length new_value)%nat then VList new_value
         else VNone)).
Proof. reflexivity. Qed.

Lemma render_str_empty (s : string) :
  jinja (_remove_omit_placeholder s) context = Rendered "" →
  _render_value jinja (VStr s) context = Ok VNone.
Proof. intros Hs. simpl. by rewrite Hs. Qed.

Lemma render_dict_all_pruned (d : dict) :
  (∀ k v, d !! k = Some v → _render_value jinja v context = Ok VNone) →
  _render_value jinja (VDict d) context = Ok VNone.
Proof.
  intros Hall. rewrite render_dict_eq.
  rewrite render_entries_all_Ok.
  - rewrite bind_Ok.
    replace (omap keep_present ((fun v => _render_value jinja v context) <$> d))
      with (∅ : dict); [done|].
    symmetry. apply map_empty. intros k.
    rewrite lookup_omap, lookup_fmap.
    destruct (d !! k) as [v|] eqn:Hk; [|done].
    simpl. by rewrite (Hall k v Hk).
  - intros k r. rewrite lookup_fmap.
    destruct (d !! k) as [v|] eqn:Hk; [|done].
    simpl. intros [= <-]. rewrite (Hall k v Hk). by exists VNone.
Qed.

Lemma filter_replicate_None (n : nat) :
  List.filter (fun r => negb (is_None r)) (replicate n VNone) = [].
Proof. induction n; [done|]. simpl. done. Qed.

Lemma render_list_all_pruned (l : list value) :
  (∀ v, v ∈ l → _render_value jinja v context = Ok VNone) →
  _render_value jinja (VList l) context = Ok VNone.
Proof.
  intros Hall. rewrite render_list_eq.
  rewrite (sequence_fmap_const _ l VNone) by done.
  rewrite bind_Ok. simpl. by rewrite filter_replicate_None.
Qed.

(** The entries of a rendered dict are the renderings of the entries of the
    dict that are not [None]. *)
Lemma render_dict_Ok (d : dict) (r : value) :
  _render_value jinja (VDict d) context = Ok r →
  ∃ d' : dict,
    (∀ k, d' !! k = d !! k ≫= fun v =>
                      keep_present (_render_value jinja v context))
    ∧ (∀ k v, d !! k = Some v → is_Ok (_render_value jinja v context))
    ∧ r = if (0 <? size d')%nat then VDict d' else VNone.
Proof.
  rewrite render_dict_eq.
  destruct (render_entries _) as [d'|] eqn:Hentries; [|by rewrite bind_Err].
  rewrite bind_Ok. intros [= <-].
  apply render_entries_Ok in Hentries as [Hall ->].
  eexists. split; [|split; [|reflexivity]].
  - intros k. rewrite lookup_omap, lookup_fmap. by destruct (d !! k).
  - intros k v Hk. apply (Hall k). by rewrite lookup_fmap, Hk.
Qed.

Lemma render_list_Ok (l : list value) (r : value) :
  _render_value jinja (VList l) context = Ok r →
  ∃ rs, Forall2 (fun v x => _render_value jinja v context = Ok x) l rs
        ∧ r = let kept := List.filter (fun x => negb (is_None x)) rs in
              if (0 <? List.length kept)%nat then VList kept else VNone.
Proof.
  rewrite render_list_eq.
  destruct (sequence _) as [rs|] eqn:Hseq; [|by rewrite bind_Err].
  rewrite bind_Ok. intros [= <-].
  exists rs. split; [by apply sequence_fmap_Ok|done].
Qed.

End RenderingProperties.

(** C5: a string that renders to the empty string, a dict whose values all
    render to None and a list whose items all render to None render to None
    themselves; a value that renders to None is left out of the rendered
    dict or list it is in; and {"a": "", "b": {"c": ""}} renders to None in
    any context, the empty template being rendered to the empty string. *)
Theorem rendering_prunes_empties (jinja : string → dict → rendering)
    (context : dict) :
  (∀ s, jinja (_remove_omit_placeholder s) context = Rendered "" →
        _render_value jinja (VStr s) context = Ok VNone)
  ∧ (∀ d : dict,
        (∀ k v, d !! k = Some v → _render_value jinja v context = Ok VNone) →
        _render_value jinja (VDict d) context = Ok VNone)
  ∧ (∀ l : list value,
        (∀ v, v ∈ l → _render_value jinja v context = Ok VNone) →
        _render_value jinja (VList l) context = Ok VNone)
  ∧ (∀ (d : dict) k v r,
        d !! k = Some v → _render_value jinja v context = Ok VNone →
        _render_value jinja (VDict d) context = Ok r →
        r = VNone ∨ ∃ d' : dict, r = VDict d' ∧ d' !! k = None)
  ∧ (∀ (l : list value) r,
        _render_value jinja (VList l) context = Ok r →
        ∃ rs, Forall2 (fun v x => _render_value jinja v context = Ok x) l rs
              ∧ (r = VNone
                 ∨ r = VList (List.filter (fun x => negb (is_None x)) rs)))
  ∧ (jinja "" context = Rendered "" →
     _render_value jinja
       (VDict {[ "a" := VStr ""; "b" := VDict {[ "c" := VStr "" ]} ]})
       context = Ok VNone).
Proof.
  split; [apply render_str_empty|].
  split; [apply render_dict_all_pruned|].
  split; [apply render_list_all_pruned|].
  split; [|split].
  - intros d k v r Hk Hv Hd.
    apply render_dict_Ok in Hd as (d' & Hd' & _ & ->).
    destruct (0 <? size d')%nat; [right|by left].
    exists d'. split; [done|]. by rewrite Hd', Hk; simpl; rewrite Hv.
  - intros l r Hl. apply render_list_Ok in Hl as (rs & Hrs & ->).
    exists rs. split; [done|]. simpl.
    destruct (0 <? _)%nat; [by right|by left].
  - intros Hempty.
    assert (Hstr : _render_value jinja (VStr "") context = Ok VNone)
      by (by apply render_str_empty).
    apply render_dict_all_pruned. intros k v Hk.
    apply lookup_insert_Some in Hk as [[_ <-]|[_ Hk]]; [done|].
    apply lookup_singleton_Some in Hk as [_ <-].
    apply render_dict_all_pruned. intros k' v' Hk'.
    by apply lookup_singleton_Some in Hk' as [_ <-].
Qed.

Lemma rendering_prunes_empties_witness :
  _render_value verbatim (VStr "") ∅ = Ok VNone
  ∧ _render_value verbatim
      (VDict {[ "a" := VStr ""; "b" := VDict {[ "c" := VStr "" ]} ]}) ∅
    = Ok VNone.
Proof.
  destruct (rendering_prunes_empties verbatim ∅)
    as (Hstr & _ & _ & _ & _ & Hexample).
  split; [apply Hstr|apply Hexample]; reflexivity.
Defined.

Lemma keep_present_number_or_bool (v : value) :
  is_number_or_bool v = true → keep_present (Ok v) = Some v.
Proof. by destruct v. Qed.

Lemma size_pos_lookup (d : dict) k (v : value) :
  d !! k = Some v → (0 <? size d)%nat = true.
Proof.
  intros Hk. apply Nat.ltb_lt.
  destruct (decide (size d = 0)) as [Hz|]; [|lia].
  apply map_size_empty_iff in Hz. subst. by rewrite lookup_empty in Hk.
Qed.

Lemma length_pos_elem {A : Type} (l : list A) (x : A) :
  x ∈ l → (0 <? List.length l)%nat = true.
Proof. by intros [|]. Qed.

(** C6, as the module has it: a boolean or a number is rendered to itself,
    which is not None, and is an entry of the rendered dict, an item of the
    rendered list or an entry of the rendered configuration that its
    parent renders to; None is rendered to itself too. *)
Theorem numbers_and_booleans_pass_through
    (jinja : string → dict → rendering) (context : dict) (v : value) :
  is_number_or_bool v = true →
  _render_value jinja v context = Ok v
  ∧ is_None v = false
  ∧ (∀ (d : dict) k r,
        d !! k = Some v → _render_value jinja (VDict d) context = Ok r →
        ∃ d' : dict, r = VDict d' ∧ d' !! k = Some v)
  ∧ (∀ (l : list value) r,
        v ∈ l → _render_value jinja (VList l) context = Ok r →
        ∃ l' : list value, r = VList l' ∧ v ∈ l')
  ∧ (∀ self_name template (config rendered : dict) k,
        _merge_dicts (Some (tpl_template template))
          (Some (_get_docker_parameter_from_config config)) !! k = Some v →
        (_create_rendered_configuration jinja self_name template config).2
        = Ok rendered →
        rendered !! k = Some v)
  ∧ _render_value jinja VNone context = Ok VNone.
Proof.
  intros Hv.
  assert (Hself : ∀ ctx, _render_value jinja v ctx = Ok v) by (by destruct v).
  split; [done|]. split; [by destruct v|].
  split; [|split; [|split; [|done]]].
  - intros d k r Hk Hd.
    apply render_dict_Ok in Hd as (d' & Hd' & _ & ->).
    assert (Hk' : d' !! k = Some v).
    { rewrite Hd', Hk. simpl. rewrite Hself.
      by apply keep_present_number_or_bool. }
    rewrite (size_pos_lookup _ _ _ Hk'). by exists d'.
  - intros l r Hin Hl.
    apply render_list_Ok in Hl as (rs & Hrs & ->).
    assert (Hkept : v ∈ List.filter (fun x => negb (is_None x)) rs).
    { apply list_elem_of_In, filter_In. split; [|by destruct v].
      apply list_elem_of_In.
      apply list_elem_of_lookup in Hin as [i Hi].
      destruct (Forall2_lookup_l _ _ _ _ _ Hrs Hi) as (x & Hx & Hvx).
      rewrite Hself in Hvx. injection Hvx as <-.
      apply list_elem_of_lookup. by exists i. }
    simpl. rewrite (length_pos_elem _ _ Hkept). by eexists.
  - intros self_name template config rendered k Hk. simpl. intros Hr.
    apply render_entries_Ok in Hr as [_ ->].
    rewrite lookup_omap, lookup_fmap.
    change (merge_keys (tpl_template template)
              (_get_docker_parameter_from_config config) !! k = Some v) in Hk.
    rewrite Hk. simpl. rewrite Hself.
    by apply keep_present_number_or_bool.
Qed.

Lemma numbers_and_booleans_pass_through_witness :
  _render_value verbatim (VBool false) ∅ = Ok (VBool false)
  ∧ is_None (VBool false) = false.
Proof.
  destruct (numbers_and_booleans_pass_through verbatim ∅ (VBool false))
    as (Hsame & Hpresent & _); [reflexivity|].
  split; assumption.
Defined.

(** C6 as claimed does not hold for None: it is rendered to itself, but
    that is what marks a pruned value, and it is left out of the rendered
    dict and of the rendered list. *)
Lemma null_is_dropped :
  _render_value verbatim VNone ∅ = Ok VNone
  ∧ _render_value verbatim
      (VDict {[ "a" := VNone; "b" := VBool true ]}) ∅
    = Ok (VDict {[ "b" := VBool true ]})
  ∧ _render_value verbatim (VList [VNone; VInt 1]) ∅ = Ok (VList [VInt 1]).
Proof. repeat split; vm_compute; reflexivity. Qed.

(** ** Induction on values *)

Lemma value_size_item (l : list value) (v : value) :
  v ∈ l → value_size v < value_size (VList l).
Proof.
  simpl. induction 1 as [v l|v w l _ IH]; simpl; lia.
Qed.

Lemma value_size_entry (d : dict) (k : string) (v : value) :
  d !! k = Some v → value_size v < value_size (VDict d).
Proof.
  intros Hk. simpl.
  rewrite (map_fold_delete_L _ _ k v d); [lia| |done].
  intros. lia.
Qed.

(** Induction on a value, with the property for the items of a list and
    for the values of a dict. *)
Lemma value_ind_nested (P : value → Prop) :
  P VNone → (∀ b, P (VBool b)) → (∀ z, P (VInt z)) → (∀ z, P (VFloat z)) →
  (∀ s, P (VStr s)) →
  (∀ l, Forall P l → P (VList l)) →
  (∀ d : dict, map_Forall (fun _ => P) d → P (VDict d)) →
  ∀ v, P v.
Proof.
  intros HNone HBool HInt HFloat HStr HList HDict v.
  remember (value_size v) as n eqn:Hn. revert v Hn.
  induction n as [n IH] using lt_wf_ind. intros v ->.
  destruct v as [| | | | |l|d]; auto.
  - apply HList, Forall_forall. intros x Hx.
    eapply IH; [|reflexivity]. by apply value_size_item.
  - apply HDict. intros k x Hk.
    eapply IH; [|reflexivity]. by eapply value_size_entry.
Qed.

Lemma map_error_Some {A : Type} (rs : gmap string (result A)) (e : exn) :
  map_error rs = Some e → ∃ k, rs !! k = Some (Err e).
Proof.
  unfold map_error. apply (map_fold_weak_ind
    (fun acc (m : gmap string (result A)) =>
       acc = Some e → ∃ k, m !! k = Some (Err e))); [done|].
  intros k r m acc Hfresh IH Hacc.
  destruct acc as [e1|].
  - destruct (IH Hacc) as [k' Hk']. exists k'.
    rewrite lookup_insert_ne; [done|]. intros ->. congruence.
  - destruct r as [|e1]; [done|]. injection Hacc as ->.
    exists k. by rewrite lookup_insert_eq.
Qed.

(** The only exception of rendering is the one of the templating engine. *)
Lemma render_value_raises (jinja : string → dict → rendering)
    (context : dict) (v : value) (e : exn) :
  _render_value jinja v context = Err e → ∃ msg, e = TemplateError msg.
Proof.
  revert e. induction v as [| | | |s|l IH|d IH] using value_ind_nested;
    intros e; try done.
  - simpl. destruct (jinja _ _); [done|]. intros [= <-]. by eexists.
  - rewrite render_list_eq.
    destruct (sequence _) as [rs|e1] eqn:Hseq; [by rewrite bind_Ok|].
    rewrite bind_Err. intros Heq. injection Heq as ->.
    clear -IH Hseq. induction l as [|v l IHl]; [done|].
    rewrite sequence_fmap_cons in Hseq.
    apply Forall_cons in IH as [Hv Hl].
    destruct (_render_value jinja v context) as [r|e2] eqn:Hr.
    + rewrite bind_Ok in Hseq.
      destruct (sequence _) as [rs|e2] eqn:Hseq'.
      * by rewrite bind_Ok in Hseq.
      * rewrite bind_Err in Hseq. injection Hseq as <-. by apply IHl.
    + rewrite bind_Err in Hseq. injection Hseq as <-. by apply Hv.
  - rewrite render_dict_eq.
    destruct (render_entries _) as [d'|e1] eqn:Hentries;
      [by rewrite bind_Ok|].
    rewrite bind_Err. intros Heq. injection Heq as ->.
    unfold render_entries in Hentries.
    destruct (map_error _) as [e2|] eqn:Herr; [|done].
    injection Hentries as ->.
    apply map_error_Some in Herr as [k Hk].
    rewrite lookup_fmap in Hk.
    destruct (d !! k) as [x|] eqn:Hx; [|done].
    injection Hk as Hk. by apply (IH k x).
Qed.

Lemma create_rendered_configuration_raises
    (jinja : string → dict → rendering) (self_name : string)
    (template : ContainerTemplate) (config : dict) (e : exn) :
  (_create_rendered_configuration jinja self_name template config).2 = Err e →
  ∃ msg, e = TemplateError msg.
Proof.
  unfold _create_rendered_configuration. cbn [snd].
  unfold render_entries.
  destruct (map_error _) as [e1|] eqn:Herr; [|done].
  intros Heq. injection Heq as ->.
  apply map_error_Some in Herr as [k Hk].
  rewrite lookup_fmap in Hk.
  destruct (_ !! k) as [x|]; [|done].
  injection Hk as Hk. by eapply render_value_raises.
Qed.

(** ** Building a configuration *)

(** C10: constructing a ContainerConfiguration leaves the [config] dict of
    the caller with the key CONTAINER_CONFIG_NAME set to the name of the
    instance, whether the constructor returns or raises; the other keys
    are as they were. *)
Theorem init_adds_container_config_name
    (jinja : string → dict → rendering) (name : string)
    (template : ContainerTemplate) (config : dict) :
  let config_after :=
    (ContainerConfiguration_init jinja name template config).1 in
  config_after !! "CONTAINER_CONFIG_NAME" = Some (VStr name)
  ∧ (∀ k, k ≠ "CONTAINER_CONFIG_NAME" → config_after !! k = config !! k)
  ∧ config_after
    = (_create_rendered_configuration jinja name template config).1.
Proof.
  unfold ContainerConfiguration_init, _create_rendered_configuration.
  cbn [fst]. split; [|split; [|reflexivity]].
  - apply lookup_insert_eq.
  - intros k Hk. by apply lookup_insert_ne.
Qed.

Lemma init_adds_container_config_name_witness :
  (ContainerConfiguration_init verbatim "web1"
     {| tpl_name := "web"; tpl_template := {[ "image" := VStr "nginx" ]} |}
     {[ "template" := VStr "web" ]}).1 !! "template"
  = ({[ "template" := VStr "web" ]} : dict) !! "template".
Proof.
  destruct (init_adds_container_config_name verbatim "web1"
     {| tpl_name := "web"; tpl_template := {[ "image" := VStr "nginx" ]} |}
     {[ "template" := VStr "web" ]}) as (_ & Hothers & _).
  apply Hothers. discriminate.
Defined.

(** C9: the constructor raises the KeyError for the image exactly if the
    configuration has been rendered and has no image key or has None under
    it; and a configuration that has been constructed is the rendered one
    and has an image that is not None. *)
Theorem missing_image_iff (jinja : string → dict → rendering)
    (name : string) (template : ContainerTemplate) (config : dict) :
  ((ContainerConfiguration_init jinja name template config).2
   = Err (MissingImage name (tpl_name template))
   ↔ ∃ rendered : dict,
       (_create_rendered_configuration jinja name template config).2
       = Ok rendered
       ∧ (rendered !! "image" = None ∨ rendered !! "image" = Some VNone))
  ∧ (∀ c,
      (ContainerConfiguration_init jinja name template config).2 = Ok c →
      (_create_rendered_configuration jinja name template config).2
      = Ok (_configuration c)
      ∧ ∃ image, _configuration c !! "image" = Some image ∧ image ≠ VNone).
Proof.
  pose proof (create_rendered_configuration_raises jinja name template config)
    as Hraises.
  unfold ContainerConfiguration_init.
  destruct (_create_rendered_configuration jinja name template config)
    as [config_after rendered_result].
  cbn [snd] in *. split.
  - destruct rendered_result as [rendered|e].
    + destruct (rendered !! "image") as [image|] eqn:Himage.
      * destruct image; simpl; split; intros Himg; try done;
          try (by exists rendered; split; [|right]);
          destruct Himg as (? & [= <-] & [|]); congruence.
      * split; [|done]. intros _. exists rendered. by split; [|left].
    + destruct (Hraises e eq_refl) as [msg ->].
      split; [done|]. by intros (? & ? & _).
  - intros c Hc. destruct rendered_result as [rendered|e].
    + destruct (rendered !! "image") as [image|] eqn:Himage; [|done].
      destruct (is_None image) eqn:Hnone; [done|].
      injection Hc as <-. cbn [_configuration].
      split; [done|]. exists image. split; [done|]. by destruct image.
    + by destruct e.
Qed.

Lemma missing_image_iff_witness :
  (ContainerConfiguration_init verbatim "web1"
     {| tpl_name := "web"; tpl_template := {[ "command" := VStr "run" ]} |}
     {[ "template" := VStr "web" ]}).2
  = Err (MissingImage "web1" "web").
Proof.
  destruct (missing_image_iff verbatim "web1"
     {| tpl_name := "web"; tpl_template := {[ "command" := VStr "run" ]} |}
     {[ "template" := VStr "web" ]}) as [Hiff _].
  apply Hiff. exists {[ "command" := VStr "run" ]}. split.
  - vm_compute. reflexivity.
  - left. vm_compute. reflexivity.
Defined.

(** The settings of an instance that reach the template are the ones under
    the keys of [parameter]. *)
Lemma docker_parameter_lookup (cnt_config : dict) (k : string) :
  _get_docker_parameter_from_config cnt_config !! k
  = if bool_decide (k ∈ parameter) then cnt_config !! k else None.
Proof.
  unfold _get_docker_parameter_from_config.
  assert (Hgen : ∀ (params : list string) (acc : dict),
    foldl (fun result param =>
             match cnt_config !! param with
             | Some v => <[param := v]> result
             | None => result
             end) acc params !! k
    = if bool_decide (k ∈ params)
      then match cnt_config !! k with Some v => Some v | None => acc !! k end
      else acc !! k).
  { induction params as [|param params IH]; intros acc; [done|].
    simpl. rewrite IH.
    destruct (decide (k = param)) as [->|Hne].
    - rewrite (bool_decide_eq_true_2 (param ∈ param :: params)) by left.
      destruct (cnt_config !! param) as [v|] eqn:Hparam.
      + rewrite lookup_insert_eq. by case_bool_decide.
      + by case_bool_decide.
    - assert (Hacc : match cnt_config !! param with
                     | Some v => <[param := v]> acc
                     | None => acc
                     end !! k = acc !! k).
      { destruct (cnt_config !! param); [|done]. by rewrite lookup_insert_ne. }
      rewrite Hacc.
      destruct (decide (k ∈ params)) as [Hin|Hnin].
      + rewrite !bool_decide_eq_true_2; [done|by right|done].
      + rewrite !bool_decide_eq_false_2; [done| |done].
        intros Hin. apply elem_of_cons in Hin as [|]; done. }
  rewrite Hgen, lookup_empty. by destruct (cnt_config !! k).
Qed.

Lemma based_on_is_no_parameter : "based_on" ∉ parameter.
Proof. apply (bool_decide_eq_false_1 _). vm_compute. reflexivity. Qed.

(** Rendering a configuration: under each key, the rendering of what the
    template merged with the parameters of the instance has there, unless
    that is None. *)
Lemma create_rendered_configuration_lookup
    (jinja : string → dict → rendering) (self_name : string)
    (template : ContainerTemplate) (config rendered : dict) (k : string) :
  (_create_rendered_configuration jinja self_name template config).2
  = Ok rendered →
  rendered !! k
  = _merge_dicts (Some (tpl_template template))
      (Some (_get_docker_parameter_from_config config)) !! k
    ≫= fun v =>
         keep_present
           (_render_value jinja v
              (<["CONTAINER_CONFIG_NAME" := VStr self_name]> config)).
Proof.
  unfold _create_rendered_configuration. cbn [snd]. intros Hr.
  apply render_entries_Ok in Hr as [_ ->].
  rewrite lookup_omap, lookup_fmap. by destruct (_ !! k).
Qed.

(** C7, as the module has it: resolving a template whose declaration has a
    based_on key gives, when it gives a template, one that still has the
    based_on key; and the configuration rendered from a template has under
    based_on the rendering of what the template has there, unless that is
    None. *)
Theorem resolved_template_keeps_based_on (pts t r : dict) (name : string)
    (recursion_level : nat) :
  pts !! name = Some (VDict t) →
  is_Some (t !! "based_on") →
  _get_parent_template name pts recursion_level = Ok r →
  is_Some (r !! "based_on")
  ∧ (∀ (jinja : string → dict → rendering) (self_name : string)
       (config rendered : dict),
        (_create_rendered_configuration jinja self_name
           {| tpl_name := name; tpl_template := r |} config).2
        = Ok rendered →
        rendered !! "based_on"
        = r !! "based_on" ≫= fun v =>
            keep_present
              (_render_value jinja v
                 (<["CONTAINER_CONFIG_NAME" := VStr self_name]> config))).
Proof.
  intros Hname Hkey Hres. split.
  - revert Hres. unfold _get_parent_template.
    destruct (21 - recursion_level) as [|budget].
    + by rewrite (get_parent_template_at_O _ _ _ Hname).
    + rewrite (get_parent_template_at_S _ _ _ _ Hname).
      destruct (t !! "based_on") as [based_on|] eqn:Hbased;
        [|by destruct Hkey].
      destruct based_on; intros Hres;
        try (by inversion Hres; subst; rewrite Hbased).
      * eapply merge_parent_keeps; [exact Hres|by rewrite Hbased].
      * eapply foldlM_merge_parent_keeps; [exact Hres|by rewrite Hbased].
  - intros jinja self_name config rendered Hrendered.
    rewrite (create_rendered_configuration_lookup _ _ _ _ _ _ Hrendered).
    cbn [tpl_template _merge_dicts].
    rewrite lookup_merge_keys, docker_parameter_lookup.
    rewrite bool_decide_eq_false_2 by apply based_on_is_no_parameter.
    by destruct (r !! "based_on").
Qed.

Lemma resolved_template_keeps_based_on_witness :
  is_Some (({[ "x" := VInt 1; "based_on" := VList [VStr "A"] ]} : dict)
             !! "based_on").
Proof.
  apply (resolved_template_keeps_based_on
           {[ "A" := VDict {[ "x" := VInt 1; "based_on" := VNone ]};
              "C" := VDict {[ "based_on" := VList [VStr "A"] ]} ]}
           {[ "based_on" := VList [VStr "A"] ]}
           _ "C" 0).
  - vm_compute. reflexivity.
  - vm_compute. eauto.
  - vm_compute. reflexivity.
Defined.

(** C7 as claimed does not hold: the template resolved for "web", declared
    with based_on "base", has the based_on key, and so has the configuration
    that is built from it. *)
Lemma based_on_is_not_excluded :
  (fun t => tpl_template t !! "based_on") <$>
    ContainerTemplate_init "web"
      {[ "base" := VDict {[ "image" := VStr "nginx" ]};
         "web" := VDict {[ "based_on" := VStr "base" ]} ]}
  = Ok (Some (VStr "base"))
  ∧ (fun c => _configuration c !! "based_on") <$>
      (ContainerConfiguration_init verbatim "web1"
         {| tpl_name := "web";
            tpl_template := {[ "based_on" := VStr "base";
                               "image" := VStr "nginx" ]} |}
         {[ "template" := VStr "web" ]}).2
    = Ok (Some (VStr "base")).
Proof. split; vm_compute; reflexivity. Qed.

(** ** Run order *)

(** An invariant of a loop, which may mention the items already seen. *)
Lemma foldlM_ind {A B : Type} (P : list B → A → Prop)
    (f : A → B → result A) (l : list B) (init r : A) :
  P [] init →
  (∀ seen x rest acc acc',
      l = seen ++ x :: rest → P seen acc → f acc x = Ok acc' →
      P (seen ++ [x]) acc') →
  foldlM f init l = Ok r → P l r.
Proof.
  intros Hinit Hstep.
  assert (Hgen : ∀ rest seen acc,
            l = seen ++ rest → P seen acc → foldlM f acc rest = Ok r → P l r).
  { induction rest as [|x rest IH]; intros seen acc Hl Hacc Hfold.
    - rewrite foldlM_nil in Hfold. injection Hfold as <-.
      by rewrite Hl, app_nil_r.
    - rewrite foldlM_cons in Hfold.
      destruct (f acc x) as [acc'|] eqn:Hf; [|by rewrite bind_Err in Hfold].
      rewrite bind_Ok in Hfold.
      apply (IH (seen ++ [x]) acc'); [by rewrite <- app_assoc|eauto|done]. }
  by apply (Hgen l []).
Qed.

Section RunOrderProperties.

Context {ref : Type} `{EqDecision ref}.
Variable heap : ref → ContainerConfiguration.
Variable confs : list ref.

Lemma find_config_Some (name : string) (L : ref) :
  find_config heap name confs = Some L →
  L ∈ confs ∧ get_configuration (heap L) !! "name" = Some (VStr name).
Proof.
  unfold find_config. intros Hfind. apply find_some in Hfind as [Hin Hname].
  split; [by apply list_elem_of_In|].
  unfold has_name in Hname.
  destruct (get_configuration (heap L) !! "name") as [n|]; [|done].
  destruct n; try done. simpl in Hname.
  by apply bool_decide_eq_true in Hname as ->.
Qed.

(** The configuration found is the first one of that name. *)
Lemma find_config_first (name : string) (L : ref) :
  find_config heap name confs = Some L →
  ∃ l1 l2, confs = l1 ++ L :: l2
           ∧ has_name heap name L = true
           ∧ Forall (fun c => has_name heap name c = false) l1.
Proof.
  unfold find_config. induction confs as [|c l IH]; [done|].
  simpl. destruct (has_name heap name c) eqn:Hc.
  - intros [= <-]. by exists [], l.
  - intros Hfind. destruct (IH Hfind) as (l1 & l2 & -> & HL & Hl1).
    exists (c :: l1), l2. split; [done|]. split; [done|].
    by constructor.
Qed.

Lemma links_first_nil : links_first heap confs [].
Proof. intros i C L Hi. by rewrite lookup_nil in Hi. Qed.

Lemma links_first_app (a b : list ref) :
  links_first heap confs a → links_first heap confs b →
  links_first heap confs (a ++ b).
Proof.
  intros Ha Hb i C L Hi Hlink.
  apply lookup_app_Some in Hi as [Hi|[Hge Hi]].
  - destruct (Ha i C L Hi Hlink) as (j & Hj & HL).
    exists j. split; [done|]. by apply lookup_app_l_Some.
  - destruct (Hb _ C L Hi Hlink) as (j & Hj & HL).
    exists (List.length a + j). split; [lia|].
    rewrite lookup_app_r by lia.
    by replace (List.length a + j - List.length a) with j by lia.
Qed.

Lemma links_first_snoc (pre : list ref) (c : ref) :
  links_first heap confs pre →
  (∀ L, links_to heap confs c L → L ∈ pre) →
  links_first heap confs (pre ++ [c]).
Proof.
  intros Hpre Hc i C L Hi Hlink.
  apply lookup_app_Some in Hi as [Hi|[Hge Hi]].
  - destruct (Hpre i C L Hi Hlink) as (j & Hj & HL).
    exists j. split; [done|]. by apply lookup_app_l_Some.
  - apply list_lookup_singleton_Some in Hi as [Hi <-].
    apply Hc, list_elem_of_lookup in Hlink as [j Hj].
    exists j. split; [|by apply lookup_app_l_Some].
    apply lookup_lt_Some in Hj. lia.
Qed.

Lemma add_link_found (link_order_of : ref → result (list ref))
    (acc : list ref) (s : string) (cfg : ref) :
  find_config heap (link_target s) confs = Some cfg →
  add_link heap link_order_of confs acc (VStr s)
  = (linked ← link_order_of cfg; Ok (linked ++ acc)).
Proof. intros Hfind. unfold add_link. by rewrite Hfind. Qed.

Lemma add_link_unresolved (link_order_of : ref → result (list ref))
    (acc : list ref) (s : string) :
  find_config heap (link_target s) confs = None →
  add_link heap link_order_of confs acc (VStr s) = Ok acc.
Proof. intros Hfind. unfold add_link. by rewrite Hfind. Qed.

Lemma add_links_spec (link_order_of : ref → result (list ref)) (c : ref) :
  (∀ c' lo, link_order_of c' = Ok lo → link_order_spec heap confs c' lo) →
  ∀ (cnt_links : list value) (pre : list ref) (lo : list ref),
    links_first heap confs pre →
    (∀ x, x ∈ pre → x ∈ confs) →
    foldlM (add_link heap link_order_of confs) (pre ++ [c]) cnt_links = Ok lo →
    ∃ pre', lo = pre' ++ [c]
            ∧ links_first heap confs pre'
            ∧ (∀ x, x ∈ pre' → x ∈ confs)
            ∧ (∀ x, x ∈ pre → x ∈ pre')
            ∧ (∀ s L, VStr s ∈ cnt_links →
                      find_config heap (link_target s) confs = Some L →
                      L ∈ pre').
Proof.
  intros Hrec. induction cnt_links as [|cnt_link cnt_links IH];
    intros pre lo Hfirst Hsub Hfold.
  - rewrite foldlM_nil in Hfold. injection Hfold as <-.
    exists pre. repeat split; try done. intros s L Hin. by inversion Hin.
  - rewrite foldlM_cons in Hfold.
    destruct cnt_link as [| | | |s| |];
      try (by unfold add_link in Hfold; rewrite bind_Err in Hfold).
    destruct (find_config heap (link_target s) confs) as [cfg|] eqn:Hfind.
    + rewrite (add_link_found _ _ _ _ Hfind) in Hfold.
      destruct (link_order_of cfg) as [linked|] eqn:Hlinked;
        [|by rewrite !bind_Err in Hfold].
      rewrite !bind_Ok in Hfold.
      destruct (Hrec _ _ Hlinked) as (p & -> & Hp & Hpsub & Hplinks).
      apply find_config_Some in Hfind as Hcfg. destruct Hcfg as [Hcfg _].
      rewrite app_assoc in Hfold.
      apply IH in Hfold as (pre' & -> & Hfirst' & Hsub' & Hmono & Hlinks).
      * exists pre'. repeat split; try done.
        -- intros x Hx. apply Hmono. set_solver.
        -- intros s' L Hin HL.
           apply elem_of_cons in Hin as [[= ->]|Hin]; [|by eapply Hlinks].
           rewrite Hfind in HL. injection HL as <-.
           apply Hmono. set_solver.
      * apply links_first_app; [|done]. by apply links_first_snoc.
      * intros x Hx. apply elem_of_app in Hx as [Hx|Hx]; [|by apply Hsub].
        apply elem_of_app in Hx as [Hx|Hx]; [by apply Hpsub|].
        by apply list_elem_of_singleton in Hx as ->.
    + rewrite (add_link_unresolved _ _ _ Hfind), bind_Ok in Hfold.
      apply IH in Hfold as (pre' & -> & Hfirst' & Hsub' & Hmono & Hlinks);
        [|done|done].
      exists pre'. repeat split; try done.
      intros s' L Hin HL.
      apply elem_of_cons in Hin as [[= ->]|Hin]; [|by eapply Hlinks].
      by rewrite Hfind in HL.
Qed.

Lemma get_link_order_at_spec (budget : nat) (c : ref) (lo : list ref) :
  get_link_order_at heap budget c confs = Ok lo → link_order_spec heap confs c lo.
Proof.
  revert c lo. induction budget as [|budget IH]; intros c lo; simpl.
  - destruct (get_linked_container (heap c)) as [[|]|]; done.
  - destruct (get_linked_container (heap c)) as [cnt_links|] eqn:Hlinks.
    + intros Hfold.
      apply (add_links_spec _ c IH cnt_links []) in Hfold
        as (pre' & -> & Hfirst & Hsub & _ & Hres);
        [|apply links_first_nil|by intros x Hx; inversion Hx].
      exists pre'. repeat split; try done.
      intros L (links' & s & Hlinks' & Hin & HL).
      rewrite Hlinks in Hlinks'. injection Hlinks' as <-. by eapply Hres.
    + intros [= <-]. exists []. repeat split.
      * apply links_first_nil.
      * intros x Hx. by inversion Hx.
      * intros L (links' & s & Hlinks' & _). by rewrite Hlinks in Hlinks'.
Qed.

Lemma get_link_order_spec (c : ref) (recursion_level : nat) (lo : list ref) :
  get_link_order heap c confs recursion_level = Ok lo →
  links_first heap confs lo
  ∧ c ∈ lo
  ∧ (c ∈ confs → ∀ x, x ∈ lo → x ∈ confs).
Proof.
  intros Hlo. apply get_link_order_at_spec in Hlo
    as (pre & -> & Hfirst & Hsub & Hlinks).
  split; [by apply links_first_snoc|]. split; [set_solver|].
  intros Hc x Hx. apply elem_of_app in Hx as [Hx|Hx]; [by apply Hsub|].
  by apply list_elem_of_singleton in Hx as ->.
Qed.

Lemma append_new_nil (acc : list ref) : append_new acc [] = acc.
Proof. reflexivity. Qed.

Lemma append_new_cons (acc : list ref) (l : ref) (link_order : list ref) :
  append_new acc (l :: link_order)
  = append_new (if bool_decide (l ∈ acc) then acc else acc ++ [l])
               link_order.
Proof. reflexivity. Qed.

(** Appending the new items of a link order keeps the invariant, and keeps
    and adds what it should. *)
Lemma append_new_spec (link_order seen acc : list ref) :
  links_first heap confs (seen ++ link_order) →
  (∀ x, x ∈ seen → x ∈ acc) →
  (∀ x, x ∈ link_order → x ∈ confs) →
  run_order_inv heap confs acc →
  run_order_inv heap confs (append_new acc link_order)
  ∧ (∀ x, x ∈ acc → x ∈ append_new acc link_order)
  ∧ (∀ x, x ∈ link_order → x ∈ append_new acc link_order).
Proof.
  revert seen acc. induction link_order as [|l link_order IH];
    intros seen acc Hfirst Hseen Hsub Hinv.
  - rewrite append_new_nil. split; [done|]. split; [done|].
    intros x Hx. by inversion Hx.
  - rewrite append_new_cons.
    assert (Hfirst' : links_first heap confs ((seen ++ [l]) ++ link_order))
      by (by rewrite <- app_assoc).
    assert (Hsub' : ∀ x, x ∈ link_order → x ∈ confs)
      by (intros; apply Hsub; by right).
    case_bool_decide as Hl.
    + destruct (IH (seen ++ [l]) acc) as (Hinv' & Hacc & Hnew); try done.
      { intros x Hx. apply elem_of_app in Hx as [Hx|Hx]; [by apply Hseen|].
        by apply list_elem_of_singleton in Hx as ->. }
      split; [done|]. split; [done|].
      intros x Hx. apply elem_of_cons in Hx as [->|Hx]; [|by apply Hnew].
      by apply Hacc.
    + destruct (IH (seen ++ [l]) (acc ++ [l])) as (Hinv' & Hacc & Hnew);
        try done.
      { intros x Hx. apply elem_of_app. apply elem_of_app in Hx as [Hx|Hx];
          [left; by apply Hseen|by right]. }
      { destruct Hinv as (Hnodup & Hlf & Hin). split; [|split].
        - apply NoDup_app. split; [done|]. split; [|apply NoDup_singleton].
          intros x Hx Hx'. by apply list_elem_of_singleton in Hx' as ->.
        - apply links_first_snoc; [done|].
          intros L HL. apply Hseen.
          destruct (Hfirst (List.length seen) l L) as (j & Hj & HjL);
            [|done|].
          + rewrite lookup_app_r by lia.
            by replace (List.length seen - List.length seen) with 0 by lia.
          + rewrite lookup_app_l in HjL by done.
            apply list_elem_of_lookup. by exists j.
        - intros x Hx. apply elem_of_app in Hx as [Hx|Hx]; [by apply Hin|].
          apply list_elem_of_singleton in Hx as ->. apply Hsub. by left. }
      split; [done|]. split.
      * intros x Hx. apply Hacc, elem_of_app. by left.
      * intros x Hx. apply elem_of_cons in Hx as [->|Hx]; [|by apply Hnew].
        apply Hacc, elem_of_app. right. by apply list_elem_of_singleton.
Qed.

(** One link order placed: the step of both loops of [create_run_order]. *)
Lemma place_link_order (c : ref) (acc lo : list ref) :
  c ∈ confs →
  run_order_inv heap confs acc →
  get_link_order heap c confs 0 = Ok lo →
  run_order_inv heap confs (append_new acc lo)
  ∧ (∀ x, x ∈ acc → x ∈ append_new acc lo)
  ∧ c ∈ append_new acc lo.
Proof.
  intros Hc Hinv Hlo.
  apply get_link_order_spec in Hlo as (Hfirst & Hin & Hsub).
  destruct (append_new_spec lo [] acc) as (Hinv' & Hacc & Hnew); try done.
  - intros x Hx. by inversion Hx.
  - by apply Hsub.
  - split; [done|]. split; [done|]. by apply Hnew.
Qed.

Lemma place_template_spec (cnt_template_name : value) (c : ref)
    (acc acc' : list ref) :
  c ∈ confs →
  run_order_inv heap confs acc →
  place_template heap confs cnt_template_name acc c = Ok acc' →
  run_order_inv heap confs acc'.
Proof.
  intros Hc Hinv. unfold place_template.
  destruct (eq_str _ _); [|by intros [= <-]].
  destruct (get_link_order heap c confs 0) as [lo|] eqn:Hlo;
    [|by rewrite bind_Err].
  rewrite bind_Ok. intros [= <-].
  by destruct (place_link_order c acc lo) as [? _].
Qed.

Lemma place_remaining_spec (c : ref) (acc acc' : list ref) :
  c ∈ confs →
  run_order_inv heap confs acc →
  place_remaining heap confs acc c = Ok acc' →
  run_order_inv heap confs acc'
  ∧ (∀ x, x ∈ acc → x ∈ acc')
  ∧ c ∈ acc'.
Proof.
  intros Hc Hinv. unfold place_remaining.
  case_bool_decide as Hplaced; [by intros [= <-]|].
  destruct (get_link_order heap c confs 0) as [lo|] eqn:Hlo;
    [|by rewrite bind_Err].
  rewrite bind_Ok. intros [= <-]. by apply place_link_order.
Qed.

Lemma run_order_inv_nil : run_order_inv heap confs [].
Proof.
  split; [apply NoDup_nil_2|]. split; [apply links_first_nil|].
  intros x Hx. by inversion Hx.
Qed.

(** The run order has no configuration twice, has each configuration after
    the ones it links to, and has the configurations that were given, and
    no others. *)
Lemma create_run_order_spec (run_order : value) (res : list ref) :
  create_run_order heap confs run_order = Ok res →
  run_order_inv heap confs res ∧ (∀ c, c ∈ confs → c ∈ res).
Proof.
  unfold create_run_order.
  set (first_loop := match run_order with VList _ => _ | _ => _ end).
  destruct first_loop as [placed|] eqn:Hfirst; [|by rewrite bind_Err].
  rewrite bind_Ok. intros Hsecond.
  assert (Hplaced : run_order_inv heap confs placed).
  { subst first_loop. destruct run_order as [| | | | |names|];
      try (injection Hfirst as <-; apply run_order_inv_nil).
    revert Hfirst.
    apply (foldlM_ind (fun _ acc => run_order_inv heap confs acc));
      [apply run_order_inv_nil|].
    intros _ cnt_template_name _ acc acc' _ Hacc.
    apply (foldlM_ind (fun _ acc => run_order_inv heap confs acc)); [done|].
    intros seen c rest acc1 acc2 Hconfs Hacc1.
    apply place_template_spec; [|done]. rewrite Hconfs. set_solver. }
  revert Hsecond.
  apply (foldlM_ind (fun seen acc =>
           run_order_inv heap confs acc ∧ (∀ c, c ∈ seen → c ∈ acc)));
    [split; [done|by intros c Hc; inversion Hc]|].
  intros seen c rest acc acc' Hconfs [Hacc Hseen] Hstep.
  apply place_remaining_spec in Hstep as (Hinv' & Hmono & Hc);
    [|rewrite Hconfs; set_solver|done].
  split; [done|]. intros x Hx.
  apply elem_of_app in Hx as [Hx|Hx]; [by apply Hmono, Hseen|].
  by apply list_elem_of_singleton in Hx as ->.
Qed.

End RunOrderProperties.

(** A loop whose body returns at each item returns. *)
Lemma foldlM_returns {A B : Type} (f : A → B → result A) (l : list B)
    (init : A) :
  (∀ acc x, x ∈ l → is_Ok (f acc x)) → is_Ok (foldlM f init l).
Proof.
  revert init. induction l as [|x l IH]; intros init Hf.
  - by exists init.
  - rewrite foldlM_cons. destruct (Hf init x) as [acc' ->]; [by left|].
    rewrite bind_Ok. apply IH. intros acc y Hy. apply Hf. by right.
Qed.

(** [create_run_order] raises only what [get_link_order] raises: when the
    link order of each configuration is returned, so is the run order. *)
Lemma create_run_order_returns {ref : Type} `{EqDecision ref}
    (heap : ref → ContainerConfiguration) (confs : list ref)
    (run_order : value) :
  (∀ c, c ∈ confs → is_Ok (get_link_order heap c confs 0)) →
  is_Ok (create_run_order heap confs run_order).
Proof.
  intros Hlo. unfold create_run_order.
  assert (Hfirst : is_Ok
    match run_order with
    | VList names =>
        foldlM (fun acc cnt_template_name =>
                  foldlM (place_template heap confs cnt_template_name)
                         acc confs) [] names
    | _ => Ok []
    end).
  { destruct run_order; try (by eexists).
    apply foldlM_returns. intros acc cnt_template_name _.
    apply foldlM_returns. intros acc' c Hc. unfold place_template.
    destruct (eq_str _ _); [|by eexists].
    destruct (Hlo c Hc) as [lo ->]. rewrite bind_Ok. by eexists. }
  destruct Hfirst as [placed ->]. rewrite bind_Ok.
  apply foldlM_returns. intros acc c Hc. unfold place_remaining.
  case_bool_decide; [by eexists|].
  destruct (Hlo c Hc) as [lo ->]. rewrite bind_Ok. by eexists.
Qed.

(** C1: the sequence that create_run_order returns has every configuration
    of the input exactly once (and nothing else), and a configuration L
    that a configuration C of the input links to is at an earlier place of
    it than C. *)
Theorem run_order_complete_and_linked {ref : Type} `{EqDecision ref}
    (heap : ref → ContainerConfiguration)
    (container_configurations : list ref) (run_order : value)
    (res : list ref) :
  create_run_order heap container_configurations run_order = Ok res →
  NoDup res
  ∧ (∀ c, c ∈ container_configurations ↔ c ∈ res)
  ∧ (∀ C L, C ∈ container_configurations →
            links_to heap container_configurations C L →
            before res L C).
Proof.
  intros Hres.
  apply create_run_order_spec in Hres as [(Hnodup & Hfirst & Hsub) Hall].
  split; [done|]. split; [split; [apply Hall|apply Hsub]|].
  intros C L HC Hlink.
  apply Hall, list_elem_of_lookup in HC as [i Hi].
  destruct (Hfirst i C L Hi Hlink) as (j & Hj & HL).
  by exists j, i.
Qed.

Lemma run_order_complete_and_linked_witness :
  create_run_order web_db_named [0; 1] (VList [VStr "app"]) = Ok [1; 0]
  ∧ NoDup [1; 0]
  ∧ before [1; 0] 1 0.
Proof.
  assert (Hres : create_run_order web_db_named [0; 1] (VList [VStr "app"])
                 = Ok [1; 0]) by (vm_compute; reflexivity).
  destruct (run_order_complete_and_linked web_db_named [0; 1]
              (VList [VStr "app"]) [1; 0] Hres) as (Hnodup & _ & Hbefore).
  split; [exact Hres|]. split; [exact Hnodup|].
  apply Hbefore.
  - apply list_elem_of_In. simpl. tauto.
  - exists [VStr "db:alias"], "db:alias".
    split; [vm_compute; reflexivity|].
    split; [apply list_elem_of_In; simpl; tauto|].
    vm_compute. reflexivity.
Defined.

(** ** The example of "db" and "web" *)

Section LinkOrderEquations.

Context {ref : Type} `{EqDecision ref}.
Variable heap : ref → ContainerConfiguration.
Variable confs : list ref.

(** [get_link_order] in terms of [recursion_level], as the module has it. *)
Lemma get_link_order_unlinked (c : ref) (recursion_level : nat) :
  (recursion_level ≤ 20)%nat →
  get_linked_container (heap c) = None →
  get_link_order heap c confs recursion_level = Ok [c].
Proof.
  intros Hlvl Hlinks. unfold get_link_order.
  replace (21 - recursion_level) with (S (21 - (recursion_level + 1))) by lia.
  simpl. by rewrite Hlinks.
Qed.

Lemma get_link_order_linked (c : ref) (recursion_level : nat) cnt_links :
  (recursion_level ≤ 20)%nat →
  get_linked_container (heap c) = Some cnt_links →
  get_link_order heap c confs recursion_level
  = foldlM (add_link heap
              (fun c' => get_link_order heap c' confs (recursion_level + 1))
              confs)
           [c] cnt_links.
Proof.
  intros Hlvl Hlinks. unfold get_link_order.
  replace (21 - recursion_level) with (S (21 - (recursion_level + 1))) by lia.
  simpl. by rewrite Hlinks.
Qed.

Lemma get_link_order_too_deep (c : ref) (recursion_level : nat) x cnt_links :
  20 < recursion_level →
  get_linked_container (heap c) = Some (x :: cnt_links) →
  get_link_order heap c confs recursion_level = Err CyclicLink.
Proof.
  intros Hlvl Hlinks. unfold get_link_order.
  replace (21 - recursion_level) with 0 by lia.
  simpl. by rewrite Hlinks.
Qed.

End LinkOrderEquations.

Lemma link_target_prefix (target rest : string) :
  (∀ c, c ∈ list_ascii_of_string target →
        c ≠ ":"%char ∧ c ≠ "010"%char) →
  link_target (target +:+ String ":" rest) = target.
Proof.
  intros Hplain. unfold link_target.
  assert (Hmatch : match_before_colon (target +:+ String ":" rest)
                   = Some target); [|by rewrite Hmatch].
  induction target as [|c target IH]; [done|].
  simpl. destruct (Hplain c) as [Hcolon Hnl]; [by left|].
  rewrite (proj2 (Ascii.eqb_neq _ _) Hcolon).
  rewrite (proj2 (Ascii.eqb_neq _ _) Hnl).
  rewrite IH; [done|]. intros c' Hc'. apply Hplain. by right.
Qed.

Lemma two_in_order {A : Type} (l : list A) (x y : A) (i j : nat) :
  List.length l = 2 → l !! i = Some x → l !! j = Some y → i < j →
  l = [x; y].
Proof.
  intros Hlen Hi Hj Hij.
  destruct l as [|a [|b [|]]]; try done.
  assert (j < 2) by (apply lookup_lt_Some in Hj; simpl in Hj; lia).
  assert (i = 0 ∧ j = 1) as [-> ->] by lia.
  simpl in *. congruence.
Qed.

Section PlacingEquations.

Context {ref : Type} `{EqDecision ref}.
Variable heap : ref → ContainerConfiguration.
Variable confs : list ref.

Lemma place_remaining_placed (c : ref) (acc : list ref) :
  c ∈ acc → place_remaining heap confs acc c = Ok acc.
Proof.
  intros Hc. unfold place_remaining. by rewrite bool_decide_eq_true_2.
Qed.

Lemma place_remaining_new (c : ref) (acc : list ref) :
  c ∉ acc →
  place_remaining heap confs acc c
  = (link_order ← get_link_order heap c confs 0;
     Ok (append_new acc link_order)).
Proof.
  intros Hc. unfold place_remaining. by rewrite bool_decide_eq_false_2.
Qed.

Lemma append_new_old (l : ref) (acc link_order : list ref) :
  l ∈ acc → append_new acc (l :: link_order) = append_new acc link_order.
Proof.
  intros Hl. by rewrite append_new_cons, bool_decide_eq_true_2.
Qed.

Lemma append_new_fresh (l : ref) (acc link_order : list ref) :
  l ∉ acc →
  append_new acc (l :: link_order) = append_new (acc ++ [l]) link_order.
Proof.
  intros Hl. by rewrite append_new_cons, bool_decide_eq_false_2.
Qed.

End PlacingEquations.

Section DbAndWeb.

Context {ref : Type} `{EqDecision ref}.
Variable heap : ref → ContainerConfiguration.
Variables db web : ref.

Hypothesis db_name : get_configuration (heap db) !! "name" = Some (VStr "db").
Hypothesis web_name :
  get_configuration (heap web) !! "name" = Some (VStr "web").
Hypothesis web_links :
  get_configuration (heap web) !! "links" = Some (VList [VStr "db:alias"]).

Lemma db_is_not_web : db ≠ web.
Proof. intros Heq. rewrite Heq, web_name in db_name. done. Qed.

Lemma has_name_db : has_name heap "db" db = true.
Proof. unfold has_name. by rewrite db_name. Qed.

Lemma has_name_web : has_name heap "db" web = false.
Proof. unfold has_name. by rewrite web_name. Qed.

Lemma find_db (confs : list ref) :
  confs = [db; web] ∨ confs = [web; db] →
  find_config heap (link_target "db:alias") confs = Some db.
Proof.
  change (link_target "db:alias") with "db".
  intros [-> | ->]; unfold find_config; simpl;
    by rewrite ?has_name_web, has_name_db.
Qed.

Lemma web_linked_container :
  get_linked_container (heap web) = Some [VStr "db:alias"].
Proof.
  unfold get_linked_container. unfold get_configuration in web_links.
  by rewrite web_links.
Qed.

Lemma web_links_to_db (confs : list ref) :
  confs = [db; web] ∨ confs = [web; db] → links_to heap confs web db.
Proof.
  intros Hconfs. exists [VStr "db:alias"], "db:alias".
  split; [apply web_linked_container|].
  split; [by left|by apply find_db].
Qed.

(** Whatever is returned for the two configurations is "db", then "web". *)
Lemma db_web_order (confs res : list ref) (run_order : value) :
  confs = [db; web] ∨ confs = [web; db] →
  create_run_order heap confs run_order = Ok res →
  res = [db; web].
Proof.
  intros Hconfs Hres.
  pose proof db_is_not_web as Hne.
  apply create_run_order_spec in Hres as [(Hnodup & Hfirst & Hsub) Hall].
  assert (Hweb : web ∈ res).
  { apply Hall. destruct Hconfs as [-> | ->]; set_solver. }
  apply list_elem_of_lookup in Hweb as [i Hi].
  destruct (Hfirst i web db Hi (web_links_to_db confs Hconfs))
    as (j & Hji & Hj).
  apply (two_in_order res db web j i); try done.
  assert (Hperm : res ≡ₚ confs).
  { apply NoDup_Permutation; [done| |].
    - destruct Hconfs as [-> | ->]; apply NoDup_cons;
        (split; [|apply NoDup_singleton]);
        intros Hin%list_elem_of_singleton; congruence.
    - intros x. split; [apply Hsub|apply Hall]. }
  rewrite Hperm. by destruct Hconfs as [-> | ->].
Qed.

Lemma no_priorities (confs : list ref) (run_order : value) :
  run_order = VList [] ∨ is_list run_order = false →
  create_run_order heap confs run_order
  = foldlM (place_remaining heap confs) [] confs.
Proof.
  unfold create_run_order. intros [-> | Hno]; [done|].
  by destruct run_order.
Qed.

(** With no links of "db", a run order is returned. *)
Lemma db_web_returns (confs : list ref) (run_order : value) :
  confs = [db; web] ∨ confs = [web; db] →
  run_order = VList [] ∨ is_list run_order = false →
  get_linked_container (heap db) = None →
  create_run_order heap confs run_order = Ok [db; web].
Proof.
  intros Hconfs Hrun Hdb.
  pose proof db_is_not_web as Hne.
  assert (Hlo_db : ∀ lvl, (lvl ≤ 20)%nat →
            get_link_order heap db confs lvl = Ok [db])
    by (intros; by apply get_link_order_unlinked).
  assert (Hlo_web : get_link_order heap web confs 0 = Ok [db; web]).
  { rewrite (get_link_order_linked _ _ _ _ [VStr "db:alias"]);
      [|lia|apply web_linked_container].
    rewrite foldlM_cons, (add_link_found _ _ _ _ _ _ (find_db confs Hconfs)).
    rewrite Hlo_db by lia. by rewrite !bind_Ok. }
  assert (Hdb_web : db ∉ [web])
    by (intros Hin%list_elem_of_singleton; congruence).
  assert (Hweb_db : web ∉ [db])
    by (intros Hin%list_elem_of_singleton; congruence).
  assert (Hnil : ∀ x : ref, x ∉ []) by (intros x Hin; inversion Hin).
  rewrite no_priorities by done.
  destruct Hconfs as [-> | ->]; rewrite foldlM_cons.
  - rewrite place_remaining_new, Hlo_db, !bind_Ok by (done || lia).
    rewrite append_new_fresh, append_new_nil by done.
    rewrite foldlM_cons.
    rewrite place_remaining_new, Hlo_web, !bind_Ok by done.
    rewrite append_new_old by (by left).
    rewrite append_new_fresh, append_new_nil by done.
    by rewrite foldlM_nil.
  - rewrite place_remaining_new, Hlo_web, !bind_Ok by done.
    rewrite !append_new_fresh, append_new_nil by done.
    rewrite foldlM_cons.
    rewrite place_remaining_placed, bind_Ok by (by left).
    by rewrite foldlM_nil.
Qed.

End DbAndWeb.

(** C2, as the module has it: a link is resolved by the name parameter of
    the rendered configurations, not by the name of the instance.  For two
    configurations that are rendered with the names "db" and "web", where
    the links of "web" are ["db:alias"], whatever create_run_order returns,
    in either order of the input, is "db" and then "web"; it does return
    that, with an empty run_order or one that is no list, when "db" has no
    links.  The target of a link entry is its text before the first colon,
    when no line break comes before that colon, and the configuration that
    a lookup finds is the first one of the input whose rendered name is the
    target. *)
Theorem named_db_before_web {ref : Type} `{EqDecision ref}
    (heap : ref → ContainerConfiguration) (db web : ref)
    (run_order : value) :
  get_configuration (heap db) !! "name" = Some (VStr "db") →
  get_configuration (heap web) !! "name" = Some (VStr "web") →
  get_configuration (heap web) !! "links" = Some (VList [VStr "db:alias"]) →
  run_order = VList [] ∨ is_list run_order = false →
  (∀ res, create_run_order heap [db; web] run_order = Ok res →
          res = [db; web])
  ∧ (∀ res, create_run_order heap [web; db] run_order = Ok res →
            res = [db; web])
  ∧ (get_linked_container (heap db) = None →
     create_run_order heap [db; web] run_order = Ok [db; web]
     ∧ create_run_order heap [web; db] run_order = Ok [db; web])
  ∧ (∀ target rest : string,
        (∀ c, c ∈ list_ascii_of_string target →
              c ≠ ":"%char ∧ c ≠ "010"%char) →
        link_target (target +:+ String ":" rest) = target)
  ∧ (∀ cnt_link confs L,
        find_config heap (link_target cnt_link) confs = Some L →
        get_configuration (heap L) !! "name"
        = Some (VStr (link_target cnt_link))
        ∧ ∃ l1 l2,
            confs = l1 ++ L :: l2
            ∧ Forall (fun c => has_name heap (link_target cnt_link) c = false)
                     l1).
Proof.
  intros Hdb Hweb Hlinks Hrun.
  split; [intros res; apply db_web_order; auto|].
  split; [intros res; apply db_web_order; auto|].
  split; [|split; [apply link_target_prefix|]].
  - intros Hunlinked. split; apply db_web_returns; auto.
  - intros cnt_link confs L Hfind.
    split; [by eapply find_config_Some|].
    apply find_config_first in Hfind as (l1 & l2 & -> & _ & Hl1).
    by exists l1, l2.
Qed.

Lemma named_db_before_web_witness :
  create_run_order web_db_named [1; 0] (VList []) = Ok [1; 0]
  ∧ create_run_order web_db_named [0; 1] VNone = Ok [1; 0].
Proof.
  destruct (named_db_before_web web_db_named 1 0 (VList []))
    as (_ & _ & Hempty & _);
    [vm_compute; reflexivity..|by left|].
  destruct (named_db_before_web web_db_named 1 0 VNone)
    as (_ & _ & Hnone & _);
    [vm_compute; reflexivity..|by right|].
  split.
  - apply Hempty. vm_compute. reflexivity.
  - apply Hnone. vm_compute. reflexivity.
Defined.

(** C2 as claimed does not hold: the instances are named "web" and "db" and
    "web" links to "db:alias", but neither is rendered with a name
    parameter, and "web" is placed first.  (And the target of a link entry
    with a line break before its first colon is the whole entry.) *)
Lemma instance_name_does_not_resolve_link :
  get_name (web_db_unnamed 0) = "web"
  ∧ get_name (web_db_unnamed 1) = "db"
  ∧ get_linked_container (web_db_unnamed 0) = Some [VStr "db:alias"]
  ∧ create_run_order web_db_unnamed [0; 1] (VList []) = Ok [0; 1]
  ∧ create_run_order web_db_unnamed [0; 1] VNone = Ok [0; 1]
  ∧ link_target (String "d" (String "010" "b:alias"))
    = String "d" (String "010" "b:alias").
Proof. repeat split; vm_compute; reflexivity. Qed.

Example main_demo :
  match main verbatim demo_templates demo_config VNone
             ["app"; "base"; "database"] ["web1"; "db1"] with
  | Done emitted =>
      (fun d => (d !! "name", d !! "image", d !! "restart", d !! "color"))
        <$> emitted
  | Failed _ => []
  end
  = [ (Some (VStr "db"), Some (VStr "postgres"), Some (VStr "no"), None);
      (Some (VStr "web"), Some (VStr "nginx"), Some (VStr "no"), None) ].
Proof. vm_compute. reflexivity. Qed.
(** * Further properties *)

(** ** Merging, further *)

(** X1: the keys of a merged dict are the keys of the two dicts; a key of
    only one of them has the value it has there. *)
Theorem merge_dicts_keys (B O : dict) (k : string) :
  (is_Some (_merge_dicts (Some B) (Some O) !! k)
   ↔ is_Some (B !! k) ∨ is_Some (O !! k))
  ∧ (O !! k = None → _merge_dicts (Some B) (Some O) !! k = B !! k)
  ∧ (B !! k = None → _merge_dicts (Some B) (Some O) !! k = O !! k).
Proof.
  cbn [_merge_dicts]. rewrite lookup_merge_keys.
  split; [|split].
  - destruct (B !! k), (O !! k); simpl; split; intros Hk;
      try (by eauto); by destruct Hk as [[]|[]].
  - intros ->. by destruct (B !! k).
  - by intros ->.
Qed.

Lemma merge_dicts_keys_witness :
  _merge_dicts (Some {[ "image" := VStr "nginx" ]})
               (Some {[ "name" := VStr "web" ]}) !! "image"
  = ({[ "image" := VStr "nginx" ]} : dict) !! "image".
Proof.
  destruct (merge_dicts_keys {[ "image" := VStr "nginx" ]}
              {[ "name" := VStr "web" ]} "image") as (_ & Hfirst & _).
  apply Hfirst. vm_compute. reflexivity.
Defined.

(** X2: merging a dict with None or with the empty dict, on either side,
    gives that dict. *)
Theorem merge_dicts_neutral (d : dict) :
  _merge_dicts None (Some d) = d
  ∧ _merge_dicts (Some d) None = d
  ∧ _merge_dicts (Some ∅) (Some d) = d
  ∧ _merge_dicts (Some d) (Some ∅) = d.
Proof.
  split; [done|]. split; [done|].
  split; apply map_eq; intros k; cbn [_merge_dicts];
    rewrite lookup_merge_keys, lookup_empty; by destruct (d !! k).
Qed.

(** ** The omit placeholder, further *)

Lemma string_app_empty_r (s : string) : s +:+ "" = s.
Proof.
  induction s as [|c s IH]; [done|].
  change (String c s +:+ "") with (String c (s +:+ "")). by rewrite IH.
Qed.

Lemma string_length_app (s1 s2 : string) :
  String.length (s1 +:+ s2) = String.length s1 + String.length s2.
Proof.
  induction s1 as [|c s1 IH]; [done|].
  change (S (String.length (s1 +:+ s2))
          = S (String.length s1 + String.length s2)).
  by rewrite IH.
Qed.

Lemma hex_digits_app (n : nat) (h rest : string) :
  hex_digits n h = true → hex_digits n (h +:+ rest) = true.
Proof.
  revert h. induction n as [|n IH]; intros h; [done|].
  destruct h as [|c h]; [done|]. simpl.
  intros [Hc Hh]%andb_prop. by rewrite Hc, IH.
Qed.

Lemma remove_omit_from_skip (s rest : string) :
  remove_omit_from (String.length s) (s +:+ rest) = remove_omit_from 0 rest.
Proof.
  induction s as [|c s IH]; [by destruct rest|]. simpl. apply IH.
Qed.

Lemma at_placeholder_first (c : ascii) (s : string) :
  c ≠ "_"%char → at_placeholder (String c s) = false.
Proof.
  intros Hc. unfold at_placeholder.
  change (strip_prefix "__omit_place_holder__" (String c s))
    with (if Ascii.eqb "_" c then strip_prefix "_omit_place_holder__" s
          else None).
  rewrite (proj2 (Ascii.eqb_neq "_" c)); [done|congruence].
Qed.

Lemma remove_omit_plain_prefix (plain rest : string) :
  (∀ c, c ∈ list_ascii_of_string plain → c ≠ "_"%char) →
  _remove_omit_placeholder (plain +:+ rest)
  = plain +:+ _remove_omit_placeholder rest.
Proof.
  intros Hplain. unfold _remove_omit_placeholder.
  induction plain as [|c plain IH]; [done|].
  change (String c plain +:+ rest) with (String c (plain +:+ rest)).
  change (String c plain +:+ remove_omit_from 0 rest)
    with (String c (plain +:+ remove_omit_from 0 rest)).
  cbn [remove_omit_from].
  rewrite at_placeholder_first by (apply Hplain; by left).
  rewrite IH; [done|]. intros c' Hc'. apply Hplain. by right.
Qed.

(** X3: text without an underscore is kept as it is, whatever follows it:
    a string without an underscore is not changed. *)
Theorem remove_omit_keeps_plain_text (plain rest : string) :
  (∀ c, c ∈ list_ascii_of_string plain → c ≠ "_"%char) →
  _remove_omit_placeholder (plain +:+ rest)
  = plain +:+ _remove_omit_placeholder rest
  ∧ _remove_omit_placeholder plain = plain.
Proof.
  intros Hplain. split; [by apply remove_omit_plain_prefix|].
  pose proof (remove_omit_plain_prefix plain "" Hplain) as Hgen.
  change (_remove_omit_placeholder "") with "" in Hgen.
  by rewrite !string_app_empty_r in Hgen.
Qed.

Lemma remove_omit_keeps_plain_text_witness :
  _remove_omit_placeholder "nginx:latest" = "nginx:latest".
Proof.
  apply (remove_omit_keeps_plain_text "nginx:latest" "").
  intros c Hc. apply list_elem_of_In in Hc. simpl in Hc.
  repeat (destruct Hc as [<-|Hc]; [discriminate|]). done.
Defined.

Lemma remove_omit_placeholder_only (digits : string) :
  String.length digits = 40 → hex_digits 40 digits = true →
  _remove_omit_placeholder ("__omit_place_holder__" +:+ digits) = "".
Proof.
  intros Hlen Hhex. unfold _remove_omit_placeholder.
  change ("__omit_place_holder__" +:+ digits)
    with (String "_" ("_omit_place_holder__" +:+ digits)).
  cbn [remove_omit_from].
  assert (Hat : at_placeholder
            (String "_" ("_omit_place_holder__" +:+ digits)) = true).
  { change (at_placeholder (String "_" ("_omit_place_holder__" +:+ digits)))
      with (hex_digits 40 digits). done. }
  rewrite Hat.
  replace 60 with (String.length ("_omit_place_holder__" +:+ digits))
    by (rewrite string_length_app, Hlen; reflexivity).
  pose proof (remove_omit_from_skip ("_omit_place_holder__" +:+ digits) "")
    as Hskip.
  by rewrite string_app_empty_r in Hskip.
Qed.

(** X4: a placeholder, that is "__omit_place_holder__" and 40 digits of
    [0-9a-f], is taken out of the string, after text without an
    underscore and before anything. *)
Theorem remove_omit_takes_placeholder_out (plain digits rest : string) :
  (∀ c, c ∈ list_ascii_of_string plain → c ≠ "_"%char) →
  String.length digits = 40 → hex_digits 40 digits = true →
  _remove_omit_placeholder
    (plain +:+ "__omit_place_holder__" +:+ digits +:+ rest)
  = plain +:+ _remove_omit_placeholder rest.
Proof.
  intros Hplain Hlen Hhex.
  rewrite remove_omit_plain_prefix by done.
  f_equal. unfold _remove_omit_placeholder.
  change ("__omit_place_holder__" +:+ digits +:+ rest)
    with (String "_" ("_omit_place_holder__" +:+ digits +:+ rest)).
  cbn [remove_omit_from].
  assert (Hat : at_placeholder
            (String "_" ("_omit_place_holder__" +:+ digits +:+ rest)) = true).
  { change (at_placeholder
              (String "_" ("_omit_place_holder__" +:+ digits +:+ rest)))
      with (hex_digits 40 (digits +:+ rest)).
    by apply hex_digits_app. }
  rewrite Hat.
  replace 60 with (String.length ("_omit_place_holder__" +:+ digits))
    by (rewrite string_length_app, Hlen; reflexivity).
  rewrite <- (remove_omit_from_skip ("_omit_place_holder__" +:+ digits) rest).
  reflexivity.
Qed.

Lemma remove_omit_takes_placeholder_out_witness :
  _remove_omit_placeholder
    ("db-" +:+ "__omit_place_holder__"
       +:+ "0123456789abcdef0123456789abcdef01234567" +:+ "-01")
  = "db-" +:+ _remove_omit_placeholder "-01".
Proof.
  apply (remove_omit_takes_placeholder_out "db-"
           "0123456789abcdef0123456789abcdef01234567" "-01");
    [|reflexivity|reflexivity].
  intros c Hc. apply list_elem_of_In in Hc. simpl in Hc.
  repeat (destruct Hc as [<-|Hc]; [discriminate|]). done.
Defined.

(** ** Template inheritance, further *)

Lemma get_parent_template_at_undeclared budget name (pts : dict) :
  pts !! name = None →
  get_parent_template_at budget name pts = Err (MissingTemplate name).
Proof. intros Hname. destruct budget; simpl; by rewrite Hname. Qed.

(** X5: resolving a name that is not declared raises the KeyError for it,
    at any recursion level; and so does resolving a template, within the
    depth bound, that is based on a name that is not declared. *)
Theorem undeclared_template_raises (pts t : dict) (name parent : string)
    (recursion_level : nat) :
  (pts !! name = None →
   _get_parent_template name pts recursion_level = Err (MissingTemplate name)
   ∧ ContainerTemplate_init name pts = Err (MissingTemplate name))
  ∧ (pts !! name = Some (VDict t) →
     t !! "based_on" = Some (VStr parent) →
     _remove_omit_placeholder parent ≠ "" →
     pts !! _remove_omit_placeholder parent = None →
     (recursion_level ≤ 20)%nat →
     _get_parent_template name pts recursion_level
     = Err (MissingTemplate (_remove_omit_placeholder parent))).
Proof.
  split.
  - intros Hname. unfold ContainerTemplate_init, _get_parent_template.
    by rewrite !get_parent_template_at_undeclared.
  - intros Hname Hbased Hne Hparent Hlvl. unfold _get_parent_template.
    replace (21 - recursion_level) with (S (20 - recursion_level)) by lia.
    rewrite (get_parent_template_at_S _ _ _ _ Hname), Hbased.
    unfold merge_parent. rewrite bool_decide_eq_false_2 by done.
    by rewrite get_parent_template_at_undeclared.
Qed.

Lemma undeclared_template_raises_witness :
  _get_parent_template "web"
    {[ "web" := VDict {[ "based_on" := VStr "ghost" ]} ]} 0
  = Err (MissingTemplate "ghost").
Proof.
  destruct (undeclared_template_raises
              {[ "web" := VDict {[ "based_on" := VStr "ghost" ]} ]}
              {[ "based_on" := VStr "ghost" ]} "web" "ghost" 0)
    as [_ Hparent].
  apply Hparent; try (vm_compute; reflexivity); [discriminate|lia].
Defined.

Lemma foldlM_merge_parent_none resolve (cnt_template : dict) parents :
  Forall no_parent parents →
  foldlM (merge_parent resolve) cnt_template parents = Ok cnt_template.
Proof.
  induction 1 as [|p parents Hp _ IH]; [done|].
  rewrite foldlM_cons.
  assert (Hskip : merge_parent resolve cnt_template p = Ok cnt_template).
  { destruct p; try done. unfold merge_parent.
    by rewrite (Hp _ eq_refl). }
  by rewrite Hskip, bind_Ok.
Qed.

(** X6: a template whose based_on is absent, None, a string that is empty
    once the omit placeholders are removed, a list of such entries, or
    anything that is no string and no list, is resolved, within the depth
    bound, to its own declaration. *)
Theorem template_without_parents (pts t : dict) (name : string)
    (recursion_level : nat) :
  pts !! name = Some (VDict t) →
  (recursion_level ≤ 20)%nat →
  names_no_parent (t !! "based_on") →
  _get_parent_template name pts recursion_level = Ok t.
Proof.
  intros Hname Hlvl Hnone. unfold _get_parent_template.
  replace (21 - recursion_level) with (S (20 - recursion_level)) by lia.
  rewrite (get_parent_template_at_S _ _ _ _ Hname).
  destruct (t !! "based_on") as [based_on|]; [|done].
  destruct based_on; try done.
  - unfold merge_parent. by rewrite (Hnone _ eq_refl).
  - by apply foldlM_merge_parent_none.
Qed.

Lemma template_without_parents_witness :
  _get_parent_template "base"
    {[ "base" := VDict {[ "image" := VStr "alpine";
                          "based_on" := VList [VNone; VStr ""] ]} ]} 0
  = Ok {[ "image" := VStr "alpine"; "based_on" := VList [VNone; VStr ""] ]}.
Proof.
  apply template_without_parents; [vm_compute; reflexivity|lia|].
  replace (_ !! "based_on") with (Some (VList [VNone; VStr ""]))
    by (vm_compute; reflexivity).
  repeat constructor; intros s Hs; by inversion Hs.
Defined.

(** What is true of the value under a key, and stays true when a value is
    merged under it, is true of it after the parents are merged. *)
Lemma merge_parent_value resolve (Q : value → Prop)
    (cnt_template merged : dict) parent k :
  (∀ x y, Q y → Q (merge_values x y)) →
  merge_parent resolve cnt_template parent = Ok merged →
  (∃ y, cnt_template !! k = Some y ∧ Q y) → ∃ y, merged !! k = Some y ∧ Q y.
Proof.
  intros HQ. unfold merge_parent. intros Hm (y & Hy & Qy).
  destruct parent; try (by inversion Hm; subst; eauto).
  case_bool_decide; [by inversion Hm; subst; eauto|].
  destruct (resolve _) as [parent_template|]; [|by rewrite bind_Err in Hm].
  rewrite bind_Ok in Hm. inversion Hm; subst. cbn [_merge_dicts].
  rewrite lookup_merge_keys, Hy.
  destruct (parent_template !! k); simpl; eauto.
Qed.

Lemma foldlM_merge_parent_value resolve (Q : value → Prop) parents
    (cnt_template merged : dict) k :
  (∀ x y, Q y → Q (merge_values x y)) →
  foldlM (merge_parent resolve) cnt_template parents = Ok merged →
  (∃ y, cnt_template !! k = Some y ∧ Q y) → ∃ y, merged !! k = Some y ∧ Q y.
Proof.
  intros HQ. revert cnt_template.
  induction parents as [|parent parents IH]; intros cnt_template Hfold Hk.
  - rewrite foldlM_nil in Hfold. by inversion Hfold; subst.
  - rewrite foldlM_cons in Hfold.
    destruct (merge_parent resolve cnt_template parent) as [next|] eqn:Hstep;
      [|by rewrite bind_Err in Hfold].
    rewrite bind_Ok in Hfold. eapply IH; [done|].
    by eapply merge_parent_value.
Qed.

Lemma resolved_value (Q : value → Prop) (pts t r : dict) name lvl k :
  (∀ x y, Q y → Q (merge_values x y)) →
  pts !! name = Some (VDict t) →
  _get_parent_template name pts lvl = Ok r →
  (∃ y, t !! k = Some y ∧ Q y) → ∃ y, r !! k = Some y ∧ Q y.
Proof.
  intros HQ Hname. unfold _get_parent_template.
  destruct (21 - lvl) as [|budget].
  - by rewrite (get_parent_template_at_O _ _ _ Hname).
  - rewrite (get_parent_template_at_S _ _ _ _ Hname).
    destruct (t !! "based_on") as [based_on|];
      [|by intros [= <-]].
    destruct based_on; try (by intros [= <-]).
    + intros Hres. by eapply merge_parent_value.
    + intros Hres. by eapply foldlM_merge_parent_value.
Qed.

(** X7: what a template declares itself wins over what it inherits: under
    a key of its declaration, the resolved template has the declared value
    when that is no dict and no list, and a list that ends with the
    declared list when it is a list. *)
Theorem own_value_wins (pts t r : dict) (name k : string) (v : value)
    (recursion_level : nat) :
  pts !! name = Some (VDict t) →
  t !! k = Some v →
  _get_parent_template name pts recursion_level = Ok r →
  (is_dict v = false → is_list v = false → r !! k = Some v)
  ∧ (∀ l, v = VList l →
          ∃ inherited, r !! k = Some (VList (inherited ++ l))).
Proof.
  intros Hname Hk Hres. split.
  - intros Hd Hl.
    destruct (resolved_value (fun y => y = v) pts t r name recursion_level k)
      as (y & Hy & ->); try done; [|by exists v].
    intros x y ->. apply merge_values_replace; by rewrite ?Hd, ?Hl, ?andb_false_r.
  - intros l ->.
    destruct (resolved_value (fun y => ∃ inherited, y = VList (inherited ++ l))
                pts t r name recursion_level k)
      as (y & Hy & inherited & ->); try done; [| |by exists inherited].
    + intros x y [inherited ->].
      destruct x as [| | | | |xl|]; try (by exists inherited).
      exists (xl ++ inherited). simpl. by rewrite app_assoc.
    + exists (VList l). split; [done|]. by exists [].
Qed.

Lemma own_value_wins_witness :
  ({[ "env" := VList [VStr "A=1"; VStr "B=2"]; "image" := VStr "nginx";
      "based_on" := VStr "base" ]} : dict) !! "image" = Some (VStr "nginx").
Proof.
  eapply (own_value_wins
            {[ "base" := VDict {[ "image" := VStr "alpine";
                                  "env" := VList [VStr "A=1"] ]};
               "web" := VDict {[ "based_on" := VStr "base";
                                 "image" := VStr "nginx";
                                 "env" := VList [VStr "B=2"] ]} ]}
            _ _ "web" "image" (VStr "nginx") 0);
    try reflexivity; vm_compute; reflexivity.
Defined.

Section Chain.

Variable pts : dict.
Variable name : nat → string.
Variable n : nat.

Hypothesis plain_names :
  ∀ i, (i ≤ n)%nat → _remove_omit_placeholder (name i) = name i ∧ name i ≠ "".
Hypothesis based_on_next :
  ∀ i, i < n →
       ∃ t : dict, pts !! name i = Some (VDict t)
                   ∧ t !! "based_on" = Some (VStr (name (S i))).
Hypothesis last_is_leaf :
  ∃ t : dict, pts !! name n = Some (VDict t) ∧ t !! "based_on" = None.

Lemma chain_resolves (k budget i : nat) :
  i + k = n → k < budget →
  is_Ok (get_parent_template_at budget (name i) pts).
Proof.
  revert budget i. induction k as [|k IH]; intros budget i Hi Hk;
    destruct budget as [|budget]; try lia.
  - destruct last_is_leaf as (t & Hname & Hleaf).
    replace i with n by lia. exists t.
    by apply get_parent_template_at_leaf.
  - destruct (based_on_next i) as (t & Hname & Hbased); [lia|].
    destruct (IH budget (S i)) as [parent Hparent]; [lia..|].
    rewrite (get_parent_template_at_S _ _ _ _ Hname), Hbased.
    destruct (plain_names (S i)) as [Hplain Hne]; [lia|].
    eexists. by apply merge_parent_named.
Qed.

Lemma chain_too_deep (budget i : nat) :
  i + budget < n ∨ i + budget = n →
  get_parent_template_at budget (name i) pts = Err CyclicInheritance.
Proof.
  revert i. induction budget as [|budget IH]; intros i Hi.
  - assert (Hdeclared : ∃ t, pts !! name i = Some t).
    { destruct (decide (i = n)) as [->|].
      - destruct last_is_leaf as (t & Hname & _). eauto.
      - destruct (based_on_next i) as (t & Hname & _); [lia|]. eauto. }
    destruct Hdeclared as [t Ht]. by eapply get_parent_template_at_O.
  - destruct (based_on_next i) as (t & Hname & Hbased); [lia|].
    rewrite (get_parent_template_at_S _ _ _ _ Hname), Hbased.
    destruct (plain_names (S i)) as [Hplain Hne]; [lia|].
    apply merge_parent_fails; [done..|]. apply IH. lia.
Qed.

End Chain.

(** X8: the depth bound counts templates, not cycles.  A chain of templates
    [name 0], ..., [name n], each based on the next and the last based on
    nothing, is resolved from [name 0] if it has at most 21 templates, and
    raises the RuntimeError for a cyclic based_on if it has more. *)
Theorem inheritance_depth_bound (pts : dict) (name : nat → string) (n : nat) :
  (∀ i, (i ≤ n)%nat →
        _remove_omit_placeholder (name i) = name i ∧ name i ≠ "") →
  (∀ i, i < n →
        ∃ t : dict, pts !! name i = Some (VDict t)
                    ∧ t !! "based_on" = Some (VStr (name (S i)))) →
  (∃ t : dict, pts !! name n = Some (VDict t) ∧ t !! "based_on" = None) →
  ((n ≤ 20)%nat → is_Ok (ContainerTemplate_init (name 0) pts))
  ∧ ((21 ≤ n)%nat →
     ContainerTemplate_init (name 0) pts = Err CyclicInheritance).
Proof.
  intros Hplain Hnext Hleaf. unfold ContainerTemplate_init, _get_parent_template.
  change (21 - 0) with 21. split; intros Hn.
  - destruct (chain_resolves pts name n Hplain Hnext Hleaf n 21 0)
      as [t ->]; [lia..|]. rewrite bind_Ok. by eexists.
  - rewrite (chain_too_deep pts name n Hplain Hnext Hleaf 21 0); [done|lia].
Qed.

Lemma inheritance_depth_bound_witness :
  ContainerTemplate_init (chain_name 0) (template_chain 21)
  = Err CyclicInheritance.
Proof.
  apply (inheritance_depth_bound (template_chain 21) chain_name 21); [| | |lia].
  - intros i Hi.
    do 22 (destruct i as [|i]; [split; [vm_compute; reflexivity|discriminate]|]).
    lia.
  - intros i Hi.
    do 21 (destruct i as [|i];
           [eexists; split; vm_compute; reflexivity|]).
    lia.
  - eexists. split; vm_compute; reflexivity.
Defined.

(** ** create_templates *)

Lemma sequence_fmap_returns {A B : Type} (f : A → result B) (l : list A) :
  (∀ x, x ∈ l → is_Ok (f x)) → is_Ok (sequence (f <$> l)).
Proof.
  induction l as [|x l IH]; intros Hall; [by exists []|].
  rewrite sequence_fmap_cons.
  destruct (Hall x) as [b ->]; [by left|]. rewrite bind_Ok.
  destruct IH as [bs ->]; [intros; apply Hall; by right|].
  rewrite bind_Ok. by eexists.
Qed.

Lemma sequence_fmap_raises {A B : Type} (f : A → result B) (l : list A) x e :
  x ∈ l → f x = Err e → ∃ e', sequence (f <$> l) = Err e'.
Proof.
  intros Hx Hfx.
  destruct (sequence (f <$> l)) as [bs|e'] eqn:Hseq; [|by eexists].
  apply sequence_fmap_Ok in Hseq.
  apply list_elem_of_lookup in Hx as [i Hi].
  destruct (Forall2_lookup_l _ _ _ _ _ Hseq Hi) as (b & _ & Hb). congruence.
Qed.

Lemma ContainerTemplate_init_Ok (name : string) (pts : dict) t :
  ContainerTemplate_init name pts = Ok t →
  tpl_name t = name ∧ _get_parent_template name pts 0 = Ok (tpl_template t).
Proof.
  unfold ContainerTemplate_init.
  destruct (_get_parent_template name pts 0) as [r|];
    [|by rewrite bind_Err].
  rewrite bind_Ok. by intros [= <-].
Qed.

Lemma create_templates_Ok (order : list string) (pts : dict) ts :
  create_templates order pts = Ok ts →
  tpl_name <$> ts = order
  ∧ Forall (fun t => _get_parent_template (tpl_name t) pts 0
                     = Ok (tpl_template t)) ts.
Proof.
  unfold create_templates. intros Hts. apply sequence_fmap_Ok in Hts.
  induction Hts as [|key t order' ts' Ht _ [IHn IHr]]; [done|].
  apply ContainerTemplate_init_Ok in Ht as [Hname Hres].
  split; [by rewrite fmap_cons, IHn, Hname|].
  constructor; [by rewrite Hname|done].
Qed.

(** X9: in whatever order [create_templates] goes through the names of the
    dict, what it returns is one template for each declared name, in that
    order, named by it and holding its resolution; it returns if every name
    is resolved, and raises if one is not. *)
Theorem create_templates_one_per_name (order : list string) (pts : dict) :
  order ≡ₚ (map_to_list pts).*1 →
  (∀ ts, create_templates order pts = Ok ts →
         tpl_name <$> ts = order
         ∧ List.length ts = size pts
         ∧ (∀ name, is_Some (pts !! name) ↔ name ∈ tpl_name <$> ts)
         ∧ Forall (fun t => _get_parent_template (tpl_name t) pts 0
                            = Ok (tpl_template t)) ts)
  ∧ ((∀ name, is_Some (pts !! name) →
              is_Ok (_get_parent_template name pts 0)) →
     is_Ok (create_templates order pts))
  ∧ (∀ name e, is_Some (pts !! name) →
               _get_parent_template name pts 0 = Err e →
               ∃ e', create_templates order pts = Err e').
Proof.
  intros Horder.
  assert (Hkeys : ∀ name, name ∈ order ↔ is_Some (pts !! name)).
  { intros name. rewrite Horder, <- elem_of_dom, dom_alt.
    by rewrite elem_of_list_to_set. }
  split; [|split].
  - intros ts Hts. apply create_templates_Ok in Hts as [Hnames Hres].
    split; [done|]. split; [|split; [|done]].
    + rewrite <- (length_fmap tpl_name), Hnames, Horder, length_fmap.
      by rewrite length_map_to_list.
    + intros name. by rewrite Hnames, Hkeys.
  - intros Hall. apply sequence_fmap_returns. intros name Hname.
    unfold ContainerTemplate_init.
    destruct (Hall name) as [t ->]; [by apply Hkeys|].
    rewrite bind_Ok. by eexists.
  - intros name e Hname Herr.
    apply (sequence_fmap_raises _ _ name e); [by apply Hkeys|].
    unfold ContainerTemplate_init. by rewrite Herr, bind_Err.
Qed.

Lemma is_Ok_computed {A : Type} (r : result A) :
  (match r with Ok _ => true | Err _ => false end) = true → is_Ok r.
Proof. destruct r as [a|]; [by exists a|done]. Qed.

Lemma create_templates_one_per_name_witness :
  is_Ok (create_templates ["app"; "base"; "database"] demo_templates).
Proof.
  apply (create_templates_one_per_name ["app"; "base"; "database"]
           demo_templates).
  - vm_compute. reflexivity.
  - intros name [t Ht]. unfold demo_templates in Ht.
    repeat (apply lookup_insert_Some in Ht as [[<- _]|[_ Ht]];
            [apply is_Ok_computed; vm_compute; reflexivity|]).
    apply lookup_singleton_Some in Ht as [<- _].
    apply is_Ok_computed; vm_compute; reflexivity.
Defined.

(** ** Rendering, further *)

Section RenderingFurther.

Variable jinja : string → dict → rendering.
Variable context : dict.


(** What rendering returns is None or has nothing left to prune. *)
Lemma render_value_pruned (v r : value) :
  _render_value jinja v context = Ok r → r = VNone ∨ pruned r.
Proof.
  revert r. induction v as [| | | |s|l IH|d IH] using value_ind_nested;
    intros r; try (intros [= <-]; by (left + (right; constructor))).
  - simpl. destruct (jinja _ _) as [text|]; [|done]. intros [= <-].
    destruct text; [by left|right]. by constructor.
  - intros Hl. apply render_list_Ok in Hl as (rs & Hrs & ->). simpl.
    destruct (0 <? _)%nat eqn:Hlen; [right|by left].
    constructor; [by intros Heq; rewrite Heq in Hlen|].
    apply Forall_forall. intros x Hx.
    apply list_elem_of_In, filter_In in Hx as [Hx Hnone].
    apply list_elem_of_In, list_elem_of_lookup in Hx as [i Hi].
    destruct (Forall2_lookup_r _ _ _ _ _ Hrs Hi) as (v & Hv & Hvx).
    rewrite Forall_lookup in IH.
    destruct (IH i v Hv x Hvx) as [->|]; done.
  - intros Hd. apply render_dict_Ok in Hd as (d' & Hd' & _ & ->).
    destruct (0 <? size d')%nat eqn:Hsize; [right|by left].
    constructor.
    + intros ->. by rewrite map_size_empty in Hsize.
    + intros k x Hk. rewrite Hd' in Hk.
      destruct (d !! k) as [v|] eqn:Hv; [|done]. simpl in Hk.
      destruct (_render_value jinja v context) as [y|] eqn:Hy; [|done].
      simpl in Hk. destruct (is_None y) eqn:Hnone; [done|].
      injection Hk as ->.
      destruct (IH k v Hv x Hy) as [->|]; done.
Qed.

End RenderingFurther.



Lemma create_rendered_configuration_pruned
    (jinja : string → dict → rendering) (self_name : string)
    (template : ContainerTemplate) (config rendered : dict) :
  (_create_rendered_configuration jinja self_name template config).2
  = Ok rendered →
  map_Forall (fun _ => pruned) rendered.
Proof.
  intros Hr k x Hk.
  rewrite (create_rendered_configuration_lookup _ _ _ _ _ _ Hr) in Hk.
  destruct (_ !! k) as [v|]; [|done]. simpl in Hk.
  destruct (_render_value _ v _) as [y|] eqn:Hy; [|done].
  simpl in Hk. destruct (is_None y) eqn:Hnone; [done|].
  injection Hk as ->.
  by destruct (render_value_pruned _ _ _ _ Hy) as [->|].
Qed.

(** X11: what rendering returns is None or fully pruned: it has no None, no
    empty string, no empty list and no empty dict anywhere in it; and every
    value of a rendered configuration is fully pruned. *)
Theorem rendered_values_are_pruned (jinja : string → dict → rendering) :
  (∀ context v r, _render_value jinja v context = Ok r →
                  r = VNone ∨ pruned r)
  ∧ (∀ self_name template (config rendered : dict),
        (_create_rendered_configuration jinja self_name template config).2
        = Ok rendered →
        map_Forall (fun _ => pruned) rendered).
Proof.
  split; [intros context v r; apply render_value_pruned|].
  intros self_name template config rendered.
  apply create_rendered_configuration_pruned.
Qed.

Lemma rendered_values_are_pruned_witness :
  VDict {[ "b" := VList [VInt 1] ]} = VNone
  ∨ pruned (VDict {[ "b" := VList [VInt 1] ]}).
Proof.
  destruct (rendered_values_are_pruned verbatim) as [Hvalue _].
  apply (Hvalue ∅ (VDict {[ "a" := VDict {[ "x" := VStr "" ]};
                             "b" := VList [VNone; VInt 1; VList []] ]})).
  vm_compute. reflexivity.
Defined.

(** X12: a parameter whose template value is nothing but an omit
    placeholder is left out of the rendered configuration, the engine
    rendering the empty template to the empty string. *)
Theorem omitted_parameter_is_left_out (jinja : string → dict → rendering)
    (self_name : string) (template : ContainerTemplate)
    (config rendered : dict) (k digits : string) :
  String.length digits = 40 → hex_digits 40 digits = true →
  _merge_dicts (Some (tpl_template template))
    (Some (_get_docker_parameter_from_config config)) !! k
  = Some (VStr ("__omit_place_holder__" +:+ digits)) →
  jinja "" (<["CONTAINER_CONFIG_NAME" := VStr self_name]> config)
  = Rendered "" →
  (_create_rendered_configuration jinja self_name template config).2
  = Ok rendered →
  rendered !! k = None.
Proof.
  intros Hlen Hhex Hk Hempty Hr.
  rewrite (create_rendered_configuration_lookup _ _ _ _ _ _ Hr), Hk.
  change (keep_present
            (_render_value jinja (VStr ("__omit_place_holder__" +:+ digits))
               (<["CONTAINER_CONFIG_NAME" := VStr self_name]> config))
          = None).
  rewrite render_str_empty; [done|].
  by rewrite remove_omit_placeholder_only.
Qed.

Lemma omitted_parameter_is_left_out_witness :
  ({[ "image" := VStr "nginx" ]} : dict) !! "hostname" = None.
Proof.
  apply (omitted_parameter_is_left_out verbatim "web1"
           {| tpl_name := "web";
              tpl_template :=
                {[ "image" := VStr "nginx";
                   "hostname" :=
                     VStr ("__omit_place_holder__"
                           +:+ "0123456789abcdef0123456789abcdef01234567") ]} |}
           {[ "template" := VStr "web" ]} _ "hostname"
           "0123456789abcdef0123456789abcdef01234567");
    vm_compute; reflexivity.
Defined.

(** ** The parameters of an instance *)

(** X13: of the settings of an instance, those under the names of
    [parameter] are taken over as they are, and no others: in particular
    not template, based_on or CONTAINER_CONFIG_NAME. *)
Theorem docker_parameters_are_whitelisted (cnt_config : dict) (k : string) :
  (k ∈ parameter →
   _get_docker_parameter_from_config cnt_config !! k = cnt_config !! k)
  ∧ (k ∉ parameter → _get_docker_parameter_from_config cnt_config !! k = None)
  ∧ ("template" ∉ parameter)
  ∧ ("based_on" ∉ parameter)
  ∧ ("CONTAINER_CONFIG_NAME" ∉ parameter).
Proof.
  rewrite docker_parameter_lookup.
  split; [by intros Hk; rewrite bool_decide_eq_true_2|].
  split; [by intros Hk; rewrite bool_decide_eq_false_2|].
  repeat split; apply (bool_decide_eq_false_1 _); vm_compute; reflexivity.
Qed.

Lemma docker_parameters_are_whitelisted_witness :
  _get_docker_parameter_from_config
    {[ "image" := VStr "nginx"; "color" := VStr "blue" ]} !! "color" = None.
Proof.
  destruct (docker_parameters_are_whitelisted
              {[ "image" := VStr "nginx"; "color" := VStr "blue" ]} "color")
    as (_ & Hother & _).
  apply Hother. apply (bool_decide_eq_false_1 _). vm_compute. reflexivity.
Defined.

(** X14: in the rendered configuration, a key that is no parameter has the
    rendering of the value of the template, whatever the instance sets
    under it; a parameter that the instance sets to a value that is no
    dict and no list has the rendering of that value.  Both are rendered
    in the settings of the instance with CONTAINER_CONFIG_NAME added. *)
Theorem instance_overrides_parameters_only
    (jinja : string → dict → rendering) (self_name : string)
    (template : ContainerTemplate) (config rendered : dict) (k : string) :
  (_create_rendered_configuration jinja self_name template config).2
  = Ok rendered →
  let context := <["CONTAINER_CONFIG_NAME" := VStr self_name]> config in
  (k ∉ parameter →
   rendered !! k
   = tpl_template template !! k ≫= fun v =>
       keep_present (_render_value jinja v context))
  ∧ (k ∈ parameter → ∀ v, config !! k = Some v →
     is_dict v = false → is_list v = false →
     rendered !! k = keep_present (_render_value jinja v context)).
Proof.
  intros Hr context.
  rewrite (create_rendered_configuration_lookup _ _ _ _ _ _ Hr).
  cbn [_merge_dicts]. rewrite lookup_merge_keys, docker_parameter_lookup.
  split.
  - intros Hk. rewrite bool_decide_eq_false_2 by done.
    by destruct (tpl_template template !! k).
  - intros Hk v Hv Hd Hl. rewrite bool_decide_eq_true_2, Hv by done.
    destruct (tpl_template template !! k) as [x|]; [|done]. simpl.
    rewrite merge_values_replace; [done|..]; by rewrite ?Hd, ?Hl, andb_false_r.
Qed.

Lemma instance_overrides_parameters_only_witness :
  ({[ "image" := VStr "nginx"; "color" := VStr "red" ]} : dict) !! "color"
  = Some (VStr "red").
Proof.
  assert (Hr : (_create_rendered_configuration verbatim "web1"
                  {| tpl_name := "web";
                     tpl_template := {[ "image" := VStr "alpine";
                                        "color" := VStr "red" ]} |}
                  {[ "image" := VStr "nginx"; "color" := VStr "blue" ]}).2
               = Ok {[ "image" := VStr "nginx"; "color" := VStr "red" ]})
    by (vm_compute; reflexivity).
  destruct (instance_overrides_parameters_only _ _ _ _ _ "color" Hr)
    as [Hother _].
  rewrite Hother.
  - vm_compute. reflexivity.
  - apply (bool_decide_eq_false_1 _). vm_compute. reflexivity.
Defined.

(** ** The constructor, further *)

Lemma ContainerConfiguration_init_Ok (jinja : string → dict → rendering)
    (name : string) (template : ContainerTemplate) (config : dict) c :
  (ContainerConfiguration_init jinja name template config).2 = Ok c →
  _name c = name
  ∧ _defintion_name c = tpl_name template
  ∧ (_create_rendered_configuration jinja name template config).2
    = Ok (_configuration c)
  ∧ ∃ image, _configuration c !! "image" = Some image ∧ image ≠ VNone.
Proof.
  unfold ContainerConfiguration_init.
  destruct (_create_rendered_configuration jinja name template config)
    as [config_after [rendered|e]]; cbn [snd]; [|by destruct e].
  destruct (rendered !! "image") as [image|] eqn:Himage; [|done].
  destruct (is_None image) eqn:Hnone; [done|].
  intros [= <-]. cbn [_name _defintion_name _configuration].
  split; [done|]. split; [done|]. split; [done|].
  exists image. split; [done|]. by destruct image.
Qed.



(** X16: every value of a configuration that has been constructed is fully
    pruned, and its links, if it has any, are a list that is not empty. *)
Theorem constructed_configuration_is_pruned
    (jinja : string → dict → rendering) (name : string)
    (template : ContainerTemplate) (config : dict) (c : ContainerConfiguration) :
  (ContainerConfiguration_init jinja name template config).2 = Ok c →
  map_Forall (fun _ => pruned) (get_configuration c)
  ∧ (∀ links, get_linked_container c = Some links →
              links ≠ [] ∧ Forall pruned links).
Proof.
  intros Hc. apply ContainerConfiguration_init_Ok in Hc as (_ & _ & Hr & _).
  apply create_rendered_configuration_pruned in Hr.
  split; [done|]. intros links. unfold get_linked_container.
  destruct (_configuration c !! "links") as [v|] eqn:Hlinks; [|done].
  pose proof (Hr _ _ Hlinks) as Hv.
  destruct v; try done; intros [= <-].
  - split; [done|]. by constructor.
  - by inversion Hv.
Qed.

Lemma constructed_configuration_is_pruned_witness :
  map_Forall (fun _ => pruned)
    ({[ "image" := VStr "nginx"; "links" := VList [VStr "db"] ]} : dict).
Proof.
  destruct (constructed_configuration_is_pruned verbatim "web1"
              {| tpl_name := "web";
                 tpl_template := {[ "image" := VStr "nginx";
                                    "links" := VList [VStr ""; VStr "db"];
                                    "env" := VList [] ]} |}
              ∅ {| _name := "web1"; _defintion_name := "web";
                   _configuration := {[ "image" := VStr "nginx";
                                        "links" := VList [VStr "db"] ]} |})
    as [Hpruned _]; [vm_compute; reflexivity|exact Hpruned].
Defined.

(** ** Link order and run order, further *)

(** X17: the link order that is returned for a configuration ends with it;
    before it come configurations of the input only, among them each one
    that it links to; and each member comes after those it links to. *)
Theorem link_order_shape {ref : Type} `{EqDecision ref}
    (heap : ref → ContainerConfiguration) (confs : list ref) (c : ref)
    (recursion_level : nat) (lo : list ref) :
  get_link_order heap c confs recursion_level = Ok lo →
  ∃ pre, lo = pre ++ [c]
         ∧ (∀ x, x ∈ pre → x ∈ confs)
         ∧ (∀ L, links_to heap confs c L → L ∈ pre)
         ∧ links_first heap confs lo.
Proof.
  intros Hlo. unfold get_link_order in Hlo.
  apply get_link_order_at_spec in Hlo as (pre & -> & Hfirst & Hsub & Hlinks).
  exists pre. split; [done|]. split; [done|]. split; [done|].
  by apply links_first_snoc.
Qed.

Lemma link_order_shape_witness :
  ∃ pre, [1; 0] = pre ++ [0]
         ∧ (∀ x, x ∈ pre → x ∈ [0; 1])
         ∧ (∀ L, links_to web_db_named [0; 1] 0 L → L ∈ pre)
         ∧ links_first web_db_named [0; 1] [1; 0].
Proof.
  apply (link_order_shape web_db_named [0; 1] 0 0 [1; 0]).
  vm_compute. reflexivity.
Defined.

Lemma foldlM_add_link_unresolved {ref : Type} `{EqDecision ref}
    (heap : ref → ContainerConfiguration) (confs : list ref)
    (link_order_of : ref → result (list ref)) (acc : list ref)
    (cnt_links : list value) :
  Forall (unresolved heap confs) cnt_links →
  foldlM (add_link heap link_order_of confs) acc cnt_links = Ok acc.
Proof.
  induction 1 as [|cnt_link cnt_links (s & -> & Hnone) _ IH]; [done|].
  rewrite foldlM_cons, add_link_unresolved by done. by rewrite bind_Ok.
Qed.

(** X18: links that are the name of no configuration of the input are
    passed over: a configuration whose links, if it has any, are all such
    strings has itself as its link order. *)
Theorem unresolved_links_are_ignored {ref : Type} `{EqDecision ref}
    (heap : ref → ContainerConfiguration) (confs : list ref) (c : ref)
    (recursion_level : nat) :
  (recursion_level ≤ 20)%nat →
  (∀ cnt_links, get_linked_container (heap c) = Some cnt_links →
     Forall (unresolved heap confs) cnt_links) →
  get_link_order heap c confs recursion_level = Ok [c].
Proof.
  intros Hlvl Hlinks.
  destruct (get_linked_container (heap c)) as [cnt_links|] eqn:Hc.
  - rewrite (get_link_order_linked _ _ _ _ cnt_links) by done.
    apply foldlM_add_link_unresolved. by apply Hlinks.
  - by apply get_link_order_unlinked.
Qed.

Lemma unresolved_links_are_ignored_witness :
  get_link_order web_db_unnamed 0 [0; 1] 0 = Ok [0].
Proof.
  apply unresolved_links_are_ignored; [lia|].
  intros cnt_links Hlinks. vm_compute in Hlinks. injection Hlinks as <-.
  constructor; [|constructor].
  exists "db:alias". split; [done|]. vm_compute. reflexivity.
Defined.

Lemma foldlM_Ok_step {A B : Type} (f : A → B → result A) (l : list B)
    (acc r : A) (x : B) :
  foldlM f acc l = Ok r → x ∈ l → ∃ a a', f a x = Ok a'.
Proof.
  revert acc. induction l as [|y l IH]; intros acc Hfold Hx;
    [by inversion Hx|].
  rewrite foldlM_cons in Hfold.
  destruct (f acc y) as [acc'|] eqn:Hy; [|by rewrite bind_Err in Hfold].
  rewrite bind_Ok in Hfold.
  apply elem_of_cons in Hx as [->|Hx]; [by exists acc, acc'|by eapply IH].
Qed.

(** X19: a link order is returned only if every entry of the links is a
    string; within the depth bound, a first entry that is no string raises
    the TypeError of [re.match]. *)
Theorem link_entries_must_be_strings {ref : Type} `{EqDecision ref}
    (heap : ref → ContainerConfiguration) (confs : list ref) (c : ref)
    (recursion_level : nat) (cnt_links : list value) :
  get_linked_container (heap c) = Some cnt_links →
  (∀ lo, get_link_order heap c confs recursion_level = Ok lo →
         Forall (fun cnt_link => ∃ s, cnt_link = VStr s) cnt_links)
  ∧ ((recursion_level ≤ 20)%nat →
     ∀ x rest, cnt_links = x :: rest → (∀ s, x ≠ VStr s) →
               get_link_order heap c confs recursion_level = Err PyTypeError).
Proof.
  intros Hlinks. split.
  - intros lo. unfold get_link_order.
    destruct (21 - recursion_level) as [|budget]; simpl; rewrite Hlinks.
    + by destruct cnt_links.
    + intros Hfold. apply Forall_forall. intros x Hx.
      destruct (foldlM_Ok_step _ _ _ _ x Hfold Hx) as (a & a' & Hstep).
      destruct x as [| | | |s| |]; try (by unfold add_link in Hstep).
      by exists s.
  - intros Hlvl x rest -> Hx.
    rewrite (get_link_order_linked _ _ _ _ (x :: rest)) by done.
    rewrite foldlM_cons.
    destruct x as [| | | |s| |]; try (by unfold add_link; rewrite bind_Err).
    by destruct (Hx s).
Qed.

Lemma link_entries_must_be_strings_witness :
  get_link_order
    (fun _ : nat => {| _name := "web1"; _defintion_name := "web";
                      _configuration := {[ "image" := VStr "nginx";
                                           "links" := VList [VInt 5] ]} |})
    0 [0] 0
  = Err PyTypeError.
Proof.
  eapply link_entries_must_be_strings;
    [vm_compute; reflexivity|lia|reflexivity|discriminate].
Defined.

Lemma links_first_tc {ref : Type} `{EqDecision ref}
    (heap : ref → ContainerConfiguration) (confs res : list ref) (C L : ref) :
  links_first heap confs res →
  tc (links_to heap confs) C L →
  ∀ i, res !! i = Some C → ∃ j, j < i ∧ res !! j = Some L.
Proof.
  intros Hfirst. induction 1 as [C L Hlink|C M L Hlink _ IH]; intros i Hi.
  - by apply (Hfirst i C L).
  - destruct (Hfirst i C M Hi Hlink) as (j & Hj & HM).
    destruct (IH j HM) as (k & Hk & HL). exists k. split; [lia|done].
Qed.

(** X20: when a configuration of the input links to itself, directly or
    through other configurations, no run order is returned. *)
Theorem cyclic_links_give_no_run_order {ref : Type} `{EqDecision ref}
    (heap : ref → ContainerConfiguration) (confs : list ref) (a : ref)
    (run_order : value) (res : list ref) :
  a ∈ confs →
  tc (links_to heap confs) a a →
  create_run_order heap confs run_order ≠ Ok res.
Proof.
  intros Ha Hcycle Hres.
  apply create_run_order_spec in Hres as [(Hnodup & Hfirst & _) Hall].
  apply Hall, list_elem_of_lookup in Ha as [i Hi].
  destruct (links_first_tc heap confs res a a Hfirst Hcycle i Hi)
    as (j & Hj & Hja).
  pose proof (NoDup_lookup _ _ _ _ Hnodup Hi Hja). lia.
Qed.

Lemma cyclic_links_give_no_run_order_witness :
  create_run_order ping_pong [0; 1] VNone ≠ Ok [0; 1].
Proof.
  apply (cyclic_links_give_no_run_order ping_pong [0; 1] 0).
  - by left.
  - apply (tc_l _ 0 1 0); [|apply tc_once].
    + exists [VStr "pong"], "pong".
      split; [vm_compute; reflexivity|]. split; [by left|].
      vm_compute. reflexivity.
    + exists [VStr "ping:peer"], "ping:peer".
      split; [vm_compute; reflexivity|]. split; [by left|].
      vm_compute. reflexivity.
Defined.

Section LinkChain.

Context {ref : Type} `{EqDecision ref}.
Variable heap : ref → ContainerConfiguration.
Variable confs : list ref.
Variable node : nat → ref.
Variable n : nat.

Hypothesis first_link_is_next :
  ∀ i, i < n →
       ∃ s rest, get_linked_container (heap (node i)) = Some (VStr s :: rest)
                 ∧ find_config heap (link_target s) confs = Some (node (S i)).

Lemma link_chain_raises (e : exn) (budget i : nat) :
  i + budget = n →
  get_link_order_at heap 0 (node n) confs = Err e →
  get_link_order_at heap budget (node i) confs = Err e.
Proof.
  revert i. induction budget as [|budget IH]; intros i Hi Hlast.
  - by replace i with n by lia.
  - destruct (first_link_is_next i) as (s & rest & Hlinks & Hfind); [lia|].
    cbn [get_link_order_at]. rewrite Hlinks, foldlM_cons.
    rewrite (add_link_found _ _ _ _ _ _ Hfind).
    rewrite (IH (S i)) by (done || lia). by rewrite !bind_Err.
Qed.

End LinkChain.

(** X21: the depth bound of the links counts configurations, not cycles.
    Following first links from a configuration through 21 others raises
    an exception, whether or not the links come back: the RuntimeError for
    cyclic linking when the last configuration has links, and the
    TypeError of [None[0]], from building the message, when it has none. *)
Theorem link_depth_bound {ref : Type} `{EqDecision ref}
    (heap : ref → ContainerConfiguration) (confs : list ref)
    (node : nat → ref) :
  (∀ i, i < 21 →
        ∃ s rest, get_linked_container (heap (node i)) = Some (VStr s :: rest)
                  ∧ find_config heap (link_target s) confs
                    = Some (node (S i))) →
  (get_linked_container (heap (node 21)) = None →
   get_link_order heap (node 0) confs 0 = Err PyTypeError)
  ∧ (∀ x rest, get_linked_container (heap (node 21)) = Some (x :: rest) →
               get_link_order heap (node 0) confs 0 = Err CyclicLink).
Proof.
  intros Hchain. unfold get_link_order. change (21 - 0) with 21. split.
  - intros Hlast. apply (link_chain_raises heap confs node 21 Hchain);
      [done|]. simpl. by rewrite Hlast.
  - intros x rest Hlast.
    apply (link_chain_raises heap confs node 21 Hchain); [done|].
    simpl. by rewrite Hlast.
Qed.

Lemma link_depth_bound_witness :
  get_link_order link_chain 0 (seq 0 22) 0 = Err PyTypeError.
Proof.
  apply (link_depth_bound link_chain (seq 0 22) (fun i => i)).
  - intros i Hi.
    do 21 (destruct i as [|i];
           [eexists _, []; split; vm_compute; reflexivity|]).
    lia.
  - vm_compute. reflexivity.
Defined.

Section Unlinked.

Context {ref : Type} `{EqDecision ref}.
Variable heap : ref → ContainerConfiguration.
Variable confs : list ref.

Hypothesis no_resolved_links :
  ∀ c cnt_links, c ∈ confs →
    get_linked_container (heap c) = Some cnt_links →
    Forall (unresolved heap confs) cnt_links.

Lemma get_link_order_alone (c : ref) :
  c ∈ confs → get_link_order heap c confs 0 = Ok [c].
Proof.
  intros Hc.
  destruct (get_linked_container (heap c)) as [cnt_links|] eqn:Hlinks.
  - rewrite (get_link_order_linked _ _ _ _ cnt_links) by (done || lia).
    apply foldlM_add_link_unresolved. by eapply no_resolved_links.
  - apply get_link_order_unlinked; [lia|done].
Qed.

Lemma place_template_alone (cnt_template_name : value) (acc l : list ref) :
  (∀ c, c ∈ l → c ∈ confs) →
  foldlM (place_template heap confs cnt_template_name) acc l
  = Ok (append_new acc
          (List.filter (fun c => eq_str cnt_template_name
                                   (get_template_name (heap c))) l)).
Proof.
  revert acc. induction l as [|c l IH]; intros acc Hl; [done|].
  rewrite foldlM_cons.
  change (place_template heap confs cnt_template_name acc c)
    with (if eq_str cnt_template_name (get_template_name (heap c))
          then link_order ← get_link_order heap c confs 0;
               Ok (append_new acc link_order)
          else Ok acc).
  cbn [List.filter].
  destruct (eq_str cnt_template_name (get_template_name (heap c))).
  - rewrite get_link_order_alone by (apply Hl; by left).
    rewrite !bind_Ok, append_new_cons.
    apply IH. intros; apply Hl; by right.
  - rewrite bind_Ok. apply IH. intros; apply Hl; by right.
Qed.

Lemma append_new_app (acc l1 l2 : list ref) :
  append_new acc (l1 ++ l2) = append_new (append_new acc l1) l2.
Proof. unfold append_new. apply foldl_app. Qed.

Lemma priority_loop_alone (names : list value) (acc : list ref) :
  foldlM (fun acc cnt_template_name =>
            foldlM (place_template heap confs cnt_template_name) acc confs)
         acc names
  = Ok (append_new acc (prioritized heap confs names)).
Proof.
  revert acc. induction names as [|name names IH]; intros acc; [done|].
  rewrite foldlM_cons, place_template_alone by done.
  rewrite bind_Ok, IH. unfold prioritized. cbn [flat_map].
  by rewrite append_new_app.
Qed.

Lemma place_remaining_alone (acc l : list ref) :
  (∀ c, c ∈ l → c ∈ confs) →
  foldlM (place_remaining heap confs) acc l = Ok (append_new acc l).
Proof.
  revert acc. induction l as [|c l IH]; intros acc Hl; [done|].
  rewrite foldlM_cons, append_new_cons.
  destruct (decide (c ∈ acc)) as [Hc|Hc].
  - rewrite place_remaining_placed, bind_Ok, bool_decide_eq_true_2 by done.
    apply IH. intros; apply Hl; by right.
  - rewrite place_remaining_new by done.
    rewrite get_link_order_alone by (apply Hl; by left).
    rewrite !bind_Ok, bool_decide_eq_false_2 by done.
    rewrite append_new_cons, bool_decide_eq_false_2 by done.
    apply IH. intros; apply Hl; by right.
Qed.

Lemma create_run_order_alone (names : list value) :
  create_run_order heap confs (VList names)
  = Ok (append_new [] (prioritized heap confs names ++ confs)).
Proof.
  unfold create_run_order. rewrite priority_loop_alone, bind_Ok.
  rewrite place_remaining_alone by done. by rewrite append_new_app.
Qed.

End Unlinked.

(** Appending the new items of a list extends the list it appends to, by
    items of the list that it has not yet, and leaves out none. *)
Lemma append_new_extends {ref : Type} `{EqDecision ref} (l acc : list ref) :
  ∃ suffix, append_new acc l = acc ++ suffix
            ∧ (∀ x, x ∈ suffix → x ∈ l ∧ x ∉ acc)
            ∧ (∀ x, x ∈ l → x ∈ acc ++ suffix).
Proof.
  revert acc. induction l as [|y l IH]; intros acc.
  - exists []. rewrite app_nil_r. split; [done|].
    split; intros x Hx; by inversion Hx.
  - rewrite append_new_cons. case_bool_decide as Hy.
    + destruct (IH acc) as (suffix & -> & Hnew & Hall).
      exists suffix. split; [done|]. split.
      * intros x Hx. destruct (Hnew x Hx). split; [by right|done].
      * intros x Hx. apply elem_of_cons in Hx as [->|Hx]; [|by apply Hall].
        apply elem_of_app. by left.
    + destruct (IH (acc ++ [y])) as (suffix & -> & Hnew & Hall).
      exists (y :: suffix). split; [by rewrite <- app_assoc|]. split.
      * intros x Hx. apply elem_of_cons in Hx as [->|Hx]; [by split; [left|]|].
        destruct (Hnew x Hx) as [Hl Hacc]. split; [by right|].
        intros Hin. apply Hacc, elem_of_app. by left.
      * intros x Hx. rewrite <- app_assoc in Hall. simpl in Hall.
        apply elem_of_cons in Hx as [->|Hx]; [|by apply Hall].
        apply elem_of_app. right. by left.
Qed.

(** X22: for configurations whose links, if any, are the names of no
    configuration of the input, the run order is the configurations of the
    templates of the priority list, in the order of the list, and then the
    input, each configuration at its first place only; so a configuration
    of a listed template comes before one of a template that is not
    listed. *)
Theorem priority_list_comes_first {ref : Type} `{EqDecision ref}
    (heap : ref → ContainerConfiguration) (confs : list ref)
    (names : list value) :
  (∀ c cnt_links, c ∈ confs →
     get_linked_container (heap c) = Some cnt_links →
     Forall (unresolved heap confs) cnt_links) →
  create_run_order heap confs (VList names)
  = Ok (append_new [] (prioritized heap confs names ++ confs))
  ∧ (∀ c1 c2, c1 ∈ confs → c2 ∈ confs →
       VStr (get_template_name (heap c1)) ∈ names →
       (∀ name, name ∈ names →
                eq_str name (get_template_name (heap c2)) = false) →
       before (append_new [] (prioritized heap confs names ++ confs)) c1 c2).
Proof.
  intros Hlinks. split; [by apply create_run_order_alone|].
  intros c1 c2 Hc1 Hc2 Hlisted Hunlisted.
  rewrite append_new_app.
  destruct (append_new_extends (prioritized heap confs names) [])
    as (placed & -> & Hplaced & Hall).
  destruct (append_new_extends confs ([] ++ placed))
    as (rest & -> & Hrest & Hall'). simpl in *.
  assert (H1 : c1 ∈ placed).
  { apply Hall. unfold prioritized. apply list_elem_of_In, in_flat_map.
    exists (VStr (get_template_name (heap c1))).
    split; [by apply list_elem_of_In|].
    apply filter_In. split; [by apply list_elem_of_In|].
    simpl. by apply bool_decide_eq_true_2. }
  assert (H2 : c2 ∉ placed).
  { intros Hin. apply Hplaced in Hin as [Hin _]. unfold prioritized in Hin.
    apply list_elem_of_In, in_flat_map in Hin as (name & Hname & Hin).
    apply filter_In in Hin as [_ Heq].
    apply list_elem_of_In in Hname.
    by rewrite (Hunlisted name Hname) in Heq. }
  assert (H3 : c2 ∈ rest).
  { specialize (Hall' c2 Hc2). apply elem_of_app in Hall' as [|]; done. }
  apply list_elem_of_lookup in H1 as [i Hi].
  apply list_elem_of_lookup in H3 as [j Hj].
  exists i, (List.length placed + j). split; [by apply lookup_app_l_Some|].
  split.
  - rewrite lookup_app_r by lia.
    by replace (List.length placed + j - List.length placed) with j by lia.
  - apply lookup_lt_Some in Hi. lia.
Qed.

Lemma priority_list_comes_first_witness :
  create_run_order web_db_unnamed [0; 1] (VList [VStr "database"])
  = Ok (append_new [] (prioritized web_db_unnamed [0; 1] [VStr "database"]
                       ++ [0; 1])).
Proof.
  apply priority_list_comes_first.
  intros c cnt_links Hc Hlinks.
  apply list_elem_of_In in Hc. simpl in Hc.
  destruct Hc as [<-|[<-|[]]]; vm_compute in Hlinks; [|done].
  injection Hlinks as <-. constructor; [|constructor].
  exists "db:alias". split; [done|]. vm_compute. reflexivity.
Defined.

(** X23: [create_run_order] raises nothing of its own: when the link order
    of each configuration is returned, so is the run order, whatever the
    priority list is. *)
Theorem run_order_raises_only_with_link_order {ref : Type} `{EqDecision ref}
    (heap : ref → ContainerConfiguration) (confs : list ref)
    (run_order : value) :
  (∀ c, c ∈ confs → is_Ok (get_link_order heap c confs 0)) →
  is_Ok (create_run_order heap confs run_order).
Proof. apply create_run_order_returns. Qed.

Lemma run_order_raises_only_with_link_order_witness :
  is_Ok (create_run_order web_db_named [0; 1] (VList [VInt 3; VStr "app"])).
Proof.
  apply run_order_raises_only_with_link_order.
  intros c Hc. apply list_elem_of_In in Hc. simpl in Hc.
  destruct Hc as [<-|[<-|[]]]; apply is_Ok_computed; vm_compute; reflexivity.
Defined.

(** ** create_configurations and main *)

Lemma ContainerConfiguration_init_config (jinja : string → dict → rendering)
    (name : string) (template : ContainerTemplate) (config : dict) :
  (ContainerConfiguration_init jinja name template config).1
  = <["CONTAINER_CONFIG_NAME" := VStr name]> config.
Proof. reflexivity. Qed.

Lemma configure_Done (jinja : string → dict → rendering)
    (templates : list ContainerTemplate) (config config1 : dict)
    (key : string) (c : ContainerConfiguration) :
  configure jinja templates config key = (config1, Done c) →
  configured jinja templates config config1 key c
  ∧ (∀ k, k ≠ key → config1 !! k = config !! k).
Proof.
  unfold configure.
  destruct (config !! key) as [v|] eqn:Hkey; [|done].
  destruct v as [| | | | | |cnt_config]; try done.
  destruct (cnt_config !! "template") as [template|] eqn:Htemplate; [|done].
  destruct (find_template templates template) as [cnt_template|] eqn:Hfind;
    [|done].
  pose proof (ContainerConfiguration_init_config jinja key cnt_template
                cnt_config) as Hstate.
  destruct (ContainerConfiguration_init jinja key cnt_template cnt_config)
    as [cnt_config' built] eqn:Hinit. cbn [fst] in Hstate. subst cnt_config'.
  destruct built as [configuration|]; [|done].
  intros [= <- <-]. split.
  - exists cnt_config, template, cnt_template.
    split; [done|]. split; [done|]. split; [done|].
    split; [by rewrite Hinit|]. apply lookup_insert_eq.
  - intros k Hk. by apply lookup_insert_ne.
Qed.

Lemma create_configurations_cons (jinja : string → dict → rendering)
    (templates : list ContainerTemplate) (config : dict) (key : string)
    (order : list string) :
  create_configurations jinja templates config (key :: order)
  = let '(config, configured) := configure jinja templates config key in
    match configured with
    | Failed e => (config, Failed e)
    | Done configuration =>
        let '(config, rest) :=
          create_configurations jinja templates config order in
        (config,
         match rest with
         | Done configurations => Done (configuration :: configurations)
         | Failed e => Failed e
         end)
    end.
Proof. reflexivity. Qed.

Lemma create_configurations_Done (jinja : string → dict → rendering)
    (templates : list ContainerTemplate) (order : list string)
    (config config_after : dict) (cs : list ContainerConfiguration) :
  NoDup order →
  create_configurations jinja templates config order = (config_after, Done cs) →
  Forall2 (configured jinja templates config config_after) order cs
  ∧ (∀ k, k ∉ order → config_after !! k = config !! k).
Proof.
  revert config config_after cs.
  induction order as [|key order IH]; intros config config_after cs Hnodup.
  - intros [= <- <-]. split; [constructor|done].
  - rewrite create_configurations_cons.
    apply NoDup_cons in Hnodup as [Hkey Hnodup].
    destruct (configure jinja templates config key) as [config1 [c|]] eqn:Hc;
      [|done].
    destruct (create_configurations jinja templates config1 order)
      as [config2 [cs'|]] eqn:Hrest; [|done].
    intros [= <- <-].
    apply configure_Done in Hc as [Hc Hother].
    destruct (IH _ _ _ Hnodup Hrest) as [Hcs Hframe].
    split.
    + constructor.
      * destruct Hc as (d & tv & t & Hd & Htv & Ht & Hinit & Hafter).
        exists d, tv, t.
        split; [done|]. split; [done|]. split; [done|]. split; [done|].
        by rewrite (Hframe key Hkey).
      * apply Forall2_same_length_lookup in Hcs as [Hlen Hcs].
        apply Forall2_same_length_lookup. split; [done|].
        intros i k c' Hk Hc'.
        destruct (Hcs i k c' Hk Hc')
          as (d & tv & t & Hd & Htv & Ht & Hinit & Hafter).
        exists d, tv, t.
        split; [|by split; [|split; [|split]]].
        rewrite <- Hd. symmetry. apply Hother. intros ->.
        apply Hkey, list_elem_of_lookup. by exists i.
    + intros k Hk. apply not_elem_of_cons in Hk as [Hne Hk].
      rewrite (Hframe k Hk). by apply Hother.
Qed.

Lemma find_template_Some (templates : list ContainerTemplate)
    (template : value) (t : ContainerTemplate) :
  find_template templates template = Some t →
  t ∈ templates ∧ template = VStr (tpl_name t).
Proof.
  unfold find_template. intros Hfind. apply find_some in Hfind as [Hin Heq].
  split; [by apply list_elem_of_In|].
  destruct template; try done. simpl in Heq.
  by apply bool_decide_eq_true in Heq as ->.
Qed.

Lemma configured_names_and_images (jinja : string → dict → rendering)
    (templates : list ContainerTemplate) (config config_after : dict)
    (order : list string) (cs : list ContainerConfiguration) :
  Forall2 (configured jinja templates config config_after) order cs →
  get_name <$> cs = order
  ∧ Forall (fun c => has_image (get_configuration c)) cs.
Proof.
  induction 1 as [|key c order' cs' Hc _ [IHn IHi]]; [done|].
  destruct Hc as (d & tv & t & _ & _ & _ & Hinit & _).
  apply ContainerConfiguration_init_Ok in Hinit as (Hname & _ & _ & Himage).
  split.
  - rewrite fmap_cons, IHn. unfold get_name. by rewrite Hname.
  - by constructor.
Qed.

(** X24: what [create_configurations] returns is one configuration for
    each instance, in the order in which it goes through them: named by
    the key of the instance, constructed from the template whose name the
    instance declares and from the settings of the instance, and with an
    image.  Afterwards the settings of each instance have
    CONTAINER_CONFIG_NAME set to its key, and nothing else of the dict that
    the caller has passed is changed. *)
Theorem create_configurations_one_per_instance
    (jinja : string → dict → rendering) (templates : list ContainerTemplate)
    (order : list string) (config config_after : dict)
    (cs : list ContainerConfiguration) :
  NoDup order →
  create_configurations jinja templates config order = (config_after, Done cs) →
  get_name <$> cs = order
  ∧ Forall (fun c => has_image (get_configuration c)) cs
  ∧ Forall (fun c =>
              ∃ (cnt_config : dict) t,
                config !! get_name c = Some (VDict cnt_config)
                ∧ cnt_config !! "template" = Some (VStr (tpl_name t))
                ∧ t ∈ templates
                ∧ get_template_name c = tpl_name t
                ∧ (ContainerConfiguration_init jinja (get_name c) t
                     cnt_config).2 = Ok c) cs
  ∧ (∀ key, key ∈ order →
        ∃ cnt_config : dict,
          config !! key = Some (VDict cnt_config)
          ∧ config_after !! key
            = Some (VDict (<["CONTAINER_CONFIG_NAME" := VStr key]>
                             cnt_config)))
  ∧ (∀ key, key ∉ order → config_after !! key = config !! key).
Proof.
  intros Hnodup Hdone.
  apply create_configurations_Done in Hdone as [Hcs Hframe]; [|done].
  destruct (configured_names_and_images _ _ _ _ _ _ Hcs) as [Hnames Himages].
  split; [done|]. split; [done|]. split; [|split; [|done]].
  - apply Forall_forall. intros c Hc.
    apply list_elem_of_lookup in Hc as [i Hi].
    destruct (Forall2_lookup_r _ _ _ _ _ Hcs Hi)
      as (key & _ & d & tv & t & Hd & Htv & Ht & Hinit & _).
    apply find_template_Some in Ht as [Ht ->].
    pose proof Hinit as Hc.
    apply ContainerConfiguration_init_Ok in Hc as (Hname & Htname & _).
    exists d, t. unfold get_name, get_template_name.
    rewrite Hname. by split; [|split; [|split; [|split]]].
  - intros key Hkey. apply list_elem_of_lookup in Hkey as [i Hi].
    destruct (Forall2_lookup_l _ _ _ _ _ Hcs Hi)
      as (c & _ & d & tv & t & Hd & _ & _ & _ & Hafter).
    by exists d.
Qed.

Lemma create_configurations_one_per_instance_witness :
  get_name <$>
    [ {| _name := "db1"; _defintion_name := "database";
         _configuration := {[ "image" := VStr "postgres" ]} |} ]
  = ["db1"].
Proof.
  eapply (create_configurations_one_per_instance verbatim
            [ {| tpl_name := "database";
                 tpl_template := {[ "image" := VStr "postgres" ]} |} ]
            ["db1"] {[ "db1" := VDict {[ "template" := VStr "database" ]} ]}).
  - apply NoDup_singleton.
  - vm_compute. reflexivity.
Defined.

(** X25: an instance without a template declaration, or with a declaration
    that is the name of no template, makes [create_configurations] raise:
    the KeyError for that instance if it is the first one that is gone
    through, and some exception wherever it is. *)
Theorem create_configurations_rejects
    (jinja : string → dict → rendering) (templates : list ContainerTemplate)
    (order : list string) (config cnt_config : dict) (key : string) :
  NoDup order → key ∈ order →
  config !! key = Some (VDict cnt_config) →
  (cnt_config !! "template" = None →
   (∃ e, (create_configurations jinja templates config order).2 = Failed e)
   ∧ (∀ rest, order = key :: rest →
        (create_configurations jinja templates config order).2
        = Failed (NoTemplateDeclaration (VDict cnt_config))))
  ∧ (∀ template, cnt_config !! "template" = Some template →
       find_template templates template = None →
       (∃ e, (create_configurations jinja templates config order).2 = Failed e)
       ∧ (∀ rest, order = key :: rest →
            (create_configurations jinja templates config order).2
            = Failed (UnknownTemplate template))).
Proof.
  intros Hnodup Hkey Hconfig.
  assert (Hnot_done : ∀ cs,
    (create_configurations jinja templates config order).2 = Done cs →
    ∃ template t, cnt_config !! "template" = Some template
                  ∧ find_template templates template = Some t).
  { intros cs Hcs.
    destruct (create_configurations jinja templates config order)
      as [config_after r] eqn:Hrun. cbn [snd] in Hcs. subst r.
    apply create_configurations_Done in Hrun as [Hall _]; [|done].
    apply list_elem_of_lookup in Hkey as [i Hi].
    destruct (Forall2_lookup_l _ _ _ _ _ Hall Hi)
      as (c & _ & d & tv & t & Hd & Htv & Ht & _).
    rewrite Hconfig in Hd. injection Hd as <-. by exists tv, t. }
  split.
  - intros Hnone. split.
    + destruct (create_configurations jinja templates config order).2
        as [cs|e] eqn:Hrun; [|by exists e].
      destruct (Hnot_done cs eq_refl) as (tv & t & Htv & _). congruence.
    + intros rest ->. rewrite create_configurations_cons.
      unfold configure. by rewrite Hconfig, Hnone.
  - intros template Htemplate Hfind. split.
    + destruct (create_configurations jinja templates config order).2
        as [cs|e] eqn:Hrun; [|by exists e].
      destruct (Hnot_done cs eq_refl) as (tv & t & Htv & Ht). congruence.
    + intros rest ->. rewrite create_configurations_cons.
      unfold configure. by rewrite Hconfig, Htemplate, Hfind.
Qed.

Lemma create_configurations_rejects_witness :
  (create_configurations verbatim [] {[ "web1" := VDict ∅ ]} ["web1"]).2
  = Failed (NoTemplateDeclaration (VDict ∅)).
Proof.
  destruct (create_configurations_rejects verbatim []
              ["web1"] {[ "web1" := VDict ∅ ]} ∅ "web1")
    as [Hnone _].
  - apply NoDup_singleton.
  - by left.
  - vm_compute. reflexivity.
  - destruct Hnone as [_ Hfirst]; [vm_compute; reflexivity|].
    by apply (Hfirst []).
Defined.

Lemma object_at_seq (objects : list ContainerConfiguration) :
  object_at objects <$> seq 0 (List.length objects) = objects.
Proof.
  apply list_eq. intros i. rewrite list_lookup_fmap.
  destruct (objects !! i) as [c|] eqn:Hi.
  - rewrite lookup_seq_lt by (by eapply lookup_lt_Some).
    simpl. f_equal. unfold object_at.
    apply nth_lookup_Some with (d := no_object) in Hi. by rewrite Hi.
  - rewrite lookup_seq_ge; [done|]. by apply lookup_ge_None.
Qed.

(** X26: what [main] hands to [exit_json] is the configurations that
    [create_configurations] has made, in some order, all of them and each
    once: one for each instance that is gone through, each with an
    image. *)
Theorem main_emits_each_configuration_once
    (jinja : string → dict → rendering) (templates config : dict)
    (run_order : value) (templates_order config_order : list string)
    (emitted : list dict) :
  NoDup config_order →
  main jinja templates config run_order templates_order config_order
  = Done emitted →
  ∃ container_templates container_configurations,
    create_templates templates_order templates = Ok container_templates
    ∧ (create_configurations jinja container_templates config config_order).2
      = Done container_configurations
    ∧ emitted ≡ₚ get_configuration <$> container_configurations
    ∧ List.length emitted = List.length config_order
    ∧ Forall has_image emitted.
Proof.
  intros Hnodup. unfold main.
  destruct (create_templates templates_order templates) as [ts|]; [|done].
  destruct (create_configurations jinja ts config config_order)
    as [config_after [cs|]] eqn:Hcs; cbn [snd]; [|done].
  destruct (create_run_order _ _ _) as [res|] eqn:Hres; [|done].
  intros [= <-]. exists ts, cs. split; [done|]. split; [by rewrite Hcs|].
  apply create_run_order_spec in Hres as [(Hres_nodup & _ & Hsub) Hall].
  assert (Hperm : res ≡ₚ seq 0 (List.length cs)).
  { apply NoDup_Permutation; [done|apply NoDup_seq|].
    intros x. split; [apply Hsub|apply Hall]. }
  assert (Hemitted : (fun c => get_configuration (object_at cs c)) <$> res
                     ≡ₚ get_configuration <$> cs).
  { rewrite Hperm.
    rewrite (list_fmap_compose (object_at cs) get_configuration).
    by rewrite object_at_seq. }
  apply create_configurations_Done in Hcs as [Hcs _]; [|done].
  apply configured_names_and_images in Hcs as [Hnames Himages].
  split; [done|]. split.
  - rewrite Hemitted, length_fmap, <- Hnames. by rewrite length_fmap.
  - rewrite Hemitted. by apply Forall_fmap.
Qed.

Lemma main_emits_each_configuration_once_witness :
  List.length
    [ ({[ "image" := VStr "postgres" ]} : dict) ] = List.length ["db1"].
Proof.
  destruct (main_emits_each_configuration_once verbatim
              {[ "database" := VDict {[ "image" := VStr "postgres" ]} ]}
              {[ "db1" := VDict {[ "template" := VStr "database" ]} ]}
              VNone ["database"] ["db1"]
              [ {[ "image" := VStr "postgres" ]} ])
    as (ts & cs & _ & _ & _ & Hlen & _).
  - apply NoDup_singleton.
  - vm_compute. reflexivity.
  - exact Hlen.
Defined.

(** ** The target of a link *)

Lemma match_before_colon_Some (cnt_link target : string) :
  match_before_colon cnt_link = Some target →
  (∃ rest, cnt_link = target +:+ String ":" rest)
  ∧ (∀ c, c ∈ list_ascii_of_string target → c ≠ ":"%char ∧ c ≠ "010"%char).
Proof.
  revert target. induction cnt_link as [|c s IH]; intros target; [done|].
  cbn [match_before_colon].
  destruct (Ascii.eqb_spec c ":") as [->|Hcolon].
  - intros [= <-]. split; [by exists s|]. intros c Hc. by inversion Hc.
  - destruct (Ascii.eqb_spec c "010") as [->|Hnl]; [done|].
    destruct (match_before_colon s) as [t|]; [|done].
    intros [= <-]. destruct (IH t eq_refl) as [[rest ->] Hplain].
    split; [by exists rest|].
    intros c' Hc'. apply elem_of_cons in Hc' as [->|Hc']; [done|].
    by apply Hplain.
Qed.

Lemma match_before_colon_None (cnt_link : string) :
  (∀ c, c ∈ list_ascii_of_string cnt_link → c ≠ ":"%char) →
  match_before_colon cnt_link = None.
Proof.
  induction cnt_link as [|c s IH]; intros Hplain; [done|].
  cbn [match_before_colon].
  rewrite (proj2 (Ascii.eqb_neq c ":")) by (apply Hplain; by left).
  destruct (Ascii.eqb c "010"); [done|].
  rewrite IH; [done|]. intros c' Hc'. apply Hplain. by right.
Qed.

(** X27: the target of a link entry without a colon is the entry; and the
    target of any entry either is the entry or is what comes before a
    colon of the entry and has no colon and no line break in it. *)
Theorem link_target_is_entry_or_before_colon (cnt_link : string) :
  ((∀ c, c ∈ list_ascii_of_string cnt_link → c ≠ ":"%char) →
   link_target cnt_link = cnt_link)
  ∧ (link_target cnt_link = cnt_link
     ∨ (∃ rest, cnt_link = link_target cnt_link +:+ String ":" rest)
       ∧ (∀ c, c ∈ list_ascii_of_string (link_target cnt_link) →
               c ≠ ":"%char ∧ c ≠ "010"%char)).
Proof.
  unfold link_target. split.
  - intros Hplain. by rewrite match_before_colon_None.
  - destruct (match_before_colon cnt_link) as [target|] eqn:Hmatch;
      [right|by left].
    by apply match_before_colon_Some.
Qed.

Lemma link_target_is_entry_or_before_colon_witness :
  link_target "db" = "db".
Proof.
  apply (link_target_is_entry_or_before_colon "db").
  intros c Hc. apply list_elem_of_In in Hc. simpl in Hc.
  repeat (destruct Hc as [<-|Hc]; [discriminate|]). done.
Defined.
